(** * PDF tool: a shallow embedding of [script.py] and its properties

    The script is a thin command layer over PyPDF2 and ReportLab.  The
    embedding keeps that layering: a fragment of the Python runtime
    (exceptions, [range], [str.split], [str(int)]), a file system with
    directories, the handful of library calls the script makes, and then
    the methods of [PDFTool] written statement by statement on top of them.
    [get_pdf_info] and the dispatch of [main] after argument parsing come
    last.  What the script obtains from outside this model (the size of a
    file, the information dictionary, the text of a [float], the text
    PyPDF2 extracts from a page) is a parameter, the host.

    Conventions.
    - Python [int] is [Z]; [len(...)] is [Z.of_nat (length ...)].
    - A path is the list of its components below the working directory;
      [os.path.join d f] appends one component.
    - The content of a regular file is the document it parses to when it is
      a well-formed PDF ([Pdf]) and its raw text otherwise ([Bytes]).  A
      document is the list of its pages; a page is its content stream (one
      operator per drawing call), its MediaBox and its /Rotate.
    - Opening a file for reading yields its whole content at once, except
      in [PdfMerger]: it keeps its sources open and reads the data of
      their pages only when the merged document is written.
    - An operation is a function from the world (file system and the trace
      of observable events) to an outcome and a new world; a Python
      exception is the outcome [Raise]. *)

From Stdlib Require Import ZArith QArith Lia Ascii.
From stdpp Require Import base option list strings pretty gmap.

#[local] Open Scope string_scope.
#[local] Open Scope list_scope.
#[local] Open Scope Z_scope.

(** ** Paths and exceptions *)

Definition path := list string.

Definition path_str (p : path) : string := String.concat "/" p.

Inductive exn :=
  | FileNotFoundError (p : path)
  | FileExistsError (p : path)
  | NotADirectoryError (p : path)
  | IsADirectoryError (p : path)
  | PdfReadError (p : path)
  | ValueError (msg : string)
  | IndexError (msg : string).

(** [str(e)], as interpolated into the log messages.  The text of a parse
    error depends on what is wrong with the file; the one given is that of
    a file without the end-of-file marker of a PDF. *)
Definition exn_str (e : exn) : string :=
  match e with
  | FileNotFoundError p =>
      "[Errno 2] No such file or directory: '" +:+ path_str p +:+ "'"
  | FileExistsError p => "[Errno 17] File exists: '" +:+ path_str p +:+ "'"
  | NotADirectoryError p => "[Errno 20] Not a directory: '" +:+ path_str p +:+ "'"
  | IsADirectoryError p => "[Errno 21] Is a directory: '" +:+ path_str p +:+ "'"
  | PdfReadError _ => "EOF marker not found"
  | ValueError msg => msg
  | IndexError msg => msg
  end.

(** ** Page model *)

(** Content-stream operators, one per drawing call. *)
Inductive op :=
  | GSave
  | GRestore
  | SetFont (name : string) (size : Z)
  | SetFillAlpha (a : Q)
  | RotateCTM (degrees : Z)
  | DrawString (x y : Z) (text : string)
  | RawOp (tok : string).

Record box := Box { llx : Z; lly : Z; urx : Z; ury : Z }.

Record page := Page {
  contents : list op;
  mediabox : box;
  rotation : Z          (* the /Rotate entry, 0 when absent *)
}.

(** ** World: file system and event trace *)

Inductive data :=
  | Bytes (s : string)
  | Pdf (pages : list page).

Inductive node :=
  | Dir
  | File (d : data).

Inductive level := INFO | ERROR.

Inductive event :=
  | Log (lvl : level) (msg : string)
  | Print (s : string)
  | SysMkdir (p : path)
  | SysOpenW (p : path)
  | SysWrite (p : path) (d : data)
  | SysRemove (p : path).

Record world := World {
  fs : gmap path node;
  trace : list event
}.

(** The working directory (the empty path) always exists. *)
Definition fs_lookup (m : gmap path node) (p : path) : option node :=
  match p with
  | [] => Some Dir
  | _ => m !! p
  end.

Definition parent (p : path) : path := removelast p.

(** Path resolution: no component on the way to [p], nor [p] itself, is a
    regular file. *)
Definition is_file_at (m : gmap path node) (q : path) : bool :=
  match fs_lookup m q with Some (File _) => true | _ => false end.

Definition prefixes (p : path) : list path :=
  (λ i, take i p) <$> seq 0 (S (length p)).

Definition no_file_prefixb (m : gmap path node) (p : path) : bool :=
  forallb (λ q, negb (is_file_at m q)) (prefixes p).

(** ** The operation monad *)

Inductive outcome (A : Type) :=
  | Return (a : A)
  | Raise (e : exn).
Arguments Return {A} a.
Arguments Raise {A} e.

Definition io (A : Type) : Type := world → outcome A * world.

Definition ret {A} (a : A) : io A := λ w, (Return a, w).

Definition raise {A} (e : exn) : io A := λ w, (Raise e, w).

Definition bind {A B} (m : io A) (k : A → io B) : io B :=
  λ w, match m w with
       | (Return a, w') => k a w'
       | (Raise e, w') => (Raise e, w')
       end.

(** [try: m except Exception as e: h e] *)
Definition try_except {A} (m : io A) (h : exn → io A) : io A :=
  λ w, match m w with
       | (Return a, w') => (Return a, w')
       | (Raise e, w') => h e w'
       end.

Notation "'let*' x ':=' m 'in' k" := (bind m (λ x, k))
  (at level 10, x pattern, m at level 100, k at level 200, only parsing).
Notation "m '>>' k" := (bind m (λ _, k))
  (at level 100, k at level 200, right associativity, only parsing).

Definition lift {A} (o : outcome A) : io A := λ w, (o, w).

Definition emit (e : event) : io unit :=
  λ w, (Return tt, World (fs w) (trace w ++ [e])).

(** ** Python runtime fragment *)

Module Py.

(** [str(n)] for an [int]. *)
Definition str (n : Z) : string := pretty n.

(** [list(range(start, stop, step))]; a zero step is a [ValueError]. *)
Definition range (start stop step : Z) : outcome (list Z) :=
  if decide (step = 0) then Raise (ValueError "range() arg 3 must not be zero")
  else
    let n :=
      if decide (0 < step)
      then (if decide (start < stop) then (stop - start - 1) / step + 1 else 0)
      else (if decide (stop < start) then (start - stop - 1) / (- step) + 1 else 0) in
    Return ((λ j : nat, start + Z.of_nat j * step) <$> seq 0 (Z.to_nat n)).

(** [s.split(sep)] for a one-character separator; never the empty list. *)
Fixpoint split (sep : ascii) (s : string) : list string :=
  match s with
  | EmptyString => [EmptyString]
  | String c s' =>
      if decide (c = sep) then EmptyString :: split sep s'
      else match split sep s' with
           | [] => [String c EmptyString]
           | l :: ls => String c l :: ls
           end
  end.

(** [sep.join(ls)] *)
Definition join (sep : string) (ls : list string) : string :=
  String.concat sep ls.

(** [xs[i]] on a sequence, with Python's negative indices. *)
Definition getitem {A} (xs : list A) (i : Z) : outcome A :=
  let n := Z.of_nat (length xs) in
  let j := if decide (i < 0) then i + n else i in
  if decide (0 ≤ j < n) then
    match xs !! Z.to_nat j with
    | Some x => Return x
    | None => Raise (IndexError "sequence index out of range")
    end
  else Raise (IndexError "sequence index out of range").

(** [print(s)] *)
Definition print (s : string) : io unit := emit (Print s).

End Py.

(** [logger.info] and [logger.error] *)
Module logger.
Definition info (msg : string) : io unit := emit (Log INFO msg).
Definition error (msg : string) : io unit := emit (Log ERROR msg).
End logger.

(** ** Operating system calls *)

Module os.

(** [os.path.exists(p)] *)
Definition exists_ (p : path) : io bool :=
  λ w, (Return (bool_decide (is_Some (fs_lookup (fs w) p))), w).

(** [os.path.join(d, name)] for a single component [name]. *)
Definition join (d : path) (name : string) : path := d ++ [name].

(** [os.mkdir(p)]: a regular file on the way to [p] is reported first, as
    "not a directory". *)
Definition mkdir (p : path) : io unit :=
  λ w, if negb (no_file_prefixb (fs w) (parent p))
       then (Raise (NotADirectoryError p), w)
       else
         match fs_lookup (fs w) p with
         | Some _ => (Raise (FileExistsError p), w)
         | None =>
             match fs_lookup (fs w) (parent p) with
             | None => (Raise (FileNotFoundError p), w)
             | Some (File _) => (Raise (NotADirectoryError p), w)
             | Some Dir => (Return tt, World (<[p := Dir]> (fs w)) (trace w))
             end
         end.

(** [os.path.isdir(p)] *)
Definition isdir (p : path) : io bool :=
  λ w, (Return (match fs_lookup (fs w) p with Some Dir => true | _ => false end), w).

(** [os.remove(p)] *)
Definition remove (p : path) : io unit :=
  λ w, match fs_lookup (fs w) p with
       | None => (Raise (FileNotFoundError p), w)
       | Some Dir => (Raise (IsADirectoryError p), w)
       | Some (File _) =>
           (Return tt, World (delete p (fs w)) (trace w ++ [SysRemove p]))
       end.

(** [open(p, 'rb')] followed by reading the whole file. *)
Definition open_rb (p : path) : io data :=
  λ w, match fs_lookup (fs w) p with
       | None => (Raise (FileNotFoundError p), w)
       | Some Dir => (Raise (IsADirectoryError p), w)
       | Some (File d) => (Return d, w)
       end.

(** [open(p, 'wb')] (and ['w']): creates or truncates the file. *)
Definition open_w (p : path) : io unit :=
  λ w, match fs_lookup (fs w) p with
       | Some Dir => (Raise (IsADirectoryError p), w)
       | _ =>
           match fs_lookup (fs w) (parent p) with
           | None => (Raise (FileNotFoundError p), w)
           | Some (File _) => (Raise (NotADirectoryError p), w)
           | Some Dir =>
               (Return tt,
                World (<[p := File (Bytes "")]> (fs w)) (trace w ++ [SysOpenW p]))
           end
       end.

(** Writing [d] through a handle opened on [p], then closing it. *)
Definition write (p : path) (d : data) : io unit :=
  λ w, (Return tt, World (<[p := File d]> (fs w)) (trace w ++ [SysWrite p d])).

End os.

(** [pathlib.Path] *)
Module Path.

(** Index of the last ['.'] of [s], counted from the left. *)
Fixpoint rfind_dot (s : string) : option nat :=
  match s with
  | EmptyString => None
  | String c s' =>
      match rfind_dot s' with
      | Some i => Some (S i)
      | None => if decide (c = "."%char) then Some O else None
      end
  end.

Fixpoint take_str (n : nat) (s : string) : string :=
  match n, s with
  | S n', String c s' => String c (take_str n' s')
  | _, _ => EmptyString
  end.

(** [PurePath.name]: the last component. *)
Definition name (p : path) : string := default "" (last p).

(** [PurePath.stem]: the name without its last suffix. *)
Definition stem (p : path) : string :=
  let nm := name p in
  match rfind_dot nm with
  | Some i =>
      if decide (0 < i < String.length nm - 1)%nat then take_str i nm else nm
  | None => nm
  end.

(** [Path(p).mkdir(parents=parents, exist_ok=True)]: try [os.mkdir]; on
    [FileNotFoundError] re-raise unless [parents] is set and the path has a
    parent other than itself, else make the parent (with its parents) and
    retry without [parents]; any other [OSError] is swallowed when the path
    is a directory.  The fuel is the depth of the path: it is exhausted
    exactly when the path is its own parent. *)
Fixpoint mkdir (fuel : nat) (parents : bool) (p : path) : io unit :=
  try_except (os.mkdir p) (λ e,
    match e with
    | FileNotFoundError _ =>
        match parents, fuel with
        | true, S fuel' =>
            mkdir fuel' true (parent p) >>
            mkdir fuel' false p
        | _, _ => raise e
        end
    | _ =>
        let* d := os.isdir p in
        if d : bool then ret tt else raise e
    end).

(** [Path(p).mkdir(parents=True, exist_ok=True)] *)
Definition mkdir_parents (p : path) : io unit :=
  mkdir (length p) true p >> emit (SysMkdir p).

End Path.

(** ** Loops *)

(** [for x in xs: acc = body(acc, x)] *)
Fixpoint foldM {A S} (body : S → A → io S) (acc : S) (xs : list A) : io S :=
  match xs with
  | [] => ret acc
  | x :: xs' => let* acc' := body acc x in foldM body acc' xs'
  end.

(** [for x in xs: body(x)] *)
Definition for_each {A} (xs : list A) (body : A → io unit) : io unit :=
  foldM (λ _ x, body x) tt xs.

(** A loop body either falls through or executes [return b]. *)
Inductive flow (S : Type) :=
  | Next (s : S)
  | Returned (b : bool).
Arguments Next {S} s.
Arguments Returned {S} b.

(** The line feed of the f-strings. *)
Definition nl : string := String (ascii_of_nat 10) EmptyString.

(** ** PyPDF2 *)

Module PyPDF2.

(** [PdfReader(file)] on the content of the file at [p], and its [.pages]. *)
Definition PdfReader (p : path) (d : data) : io (list page) :=
  match d with
  | Pdf ps => ret ps
  | Bytes _ => raise (PdfReadError p)
  end.

(** [page.rotate(angle)]: the angle is added to the page's /Rotate. *)
Definition rotate (pg : page) (angle : Z) : outcome page :=
  if decide (angle `mod` 90 ≠ 0)
  then Raise (ValueError "Rotation angle must be a multiple of 90")
  else Return (Page (contents pg) (mediabox pg) (rotation pg + angle)).

(** The stream wrapped in a save/restore pair. *)
Definition push_pop_gs (c : list op) : list op := GSave :: c ++ [GRestore].

(** [page.merge_page(page2)]: the page's own stream, then the stream of
    [page2] clipped to its box, each isolated in a graphics state; the
    MediaBox is not expanded and /Rotate is untouched. *)
Definition merge_page (pg page2 : page) : page :=
  Page (push_pop_gs (contents pg)
        ++ push_pop_gs (RawOp "re" :: RawOp "W" :: RawOp "n" :: contents page2))
       (mediabox pg) (rotation pg).

(** Text operands of the show-text operators, in stream order. *)
Fixpoint shown_text (c : list op) : list string :=
  match c with
  | [] => []
  | DrawString _ _ t :: c' => t :: shown_text c'
  | _ :: c' => shown_text c'
  end.

(** [PdfWriter()] and [writer.add_page(page)] *)
Definition PdfWriter : list page := [].
Definition add_page (writer : list page) (pg : page) : list page := writer ++ [pg].

(** [PdfMerger()]: the sources queued so far, each with its pages. *)
Definition PdfMerger : list (path * list page) := [].

(** [merger.append(path)]: the source is opened and its page tree is parsed,
    which fails on a file that is not a PDF, and its pages are queued.  The
    merger keeps the source open: the data of the queued pages stays in
    the file. *)
Definition append (merger : list (path * list page)) (p : path)
  : io (list (path * list page)) :=
  let* d := os.open_rb p in
  let* ps := PdfReader p d in
  ret (merger ++ [(p, ps)]).

(** The data of the pages queued from one source, read from the source when
    the document is written: a source that was truncated since it was
    appended no longer reads. *)
Definition read_source (pages : list page) (src : path * list page)
  : io (list page) :=
  match src.2 with
  | [] => ret pages
  | _ =>
      let* d := os.open_rb src.1 in
      let* _ := PdfReader src.1 d in
      ret (pages ++ src.2)
  end.

(** [merger.write(output)] on a handle opened on [output_file]: the queued
    pages are read, source after source, and written. *)
Definition write (merger : list (path * list page)) (output_file : path)
  : io unit :=
  let* pages := foldM read_source [] merger in
  os.write output_file (Pdf pages).

End PyPDF2.

(** ** ReportLab *)

(** [reportlab.lib.pagesizes.letter] *)
Definition letter : Z * Z := (612, 792).

Module canvas.

Record Canvas := mkCanvas {
  filename : path;
  pagesize : Z * Z;
  code : list op;           (* operators of the page being drawn *)
  finished : list page;     (* pages already emitted by showPage *)
  pageNumber : Z
}.

(** [canvas.Canvas(filename, pagesize=size)] *)
Definition new (fn : path) (size : Z * Z) : Canvas :=
  mkCanvas fn size [] [] 1.

Definition emit_op (c : Canvas) (o : op) : Canvas :=
  mkCanvas (filename c) (pagesize c) (code c ++ [o]) (finished c) (pageNumber c).

Definition setFont (c : Canvas) (name : string) (size : Z) : Canvas :=
  emit_op c (SetFont name size).
Definition setFillAlpha (c : Canvas) (a : Q) : Canvas :=
  emit_op c (SetFillAlpha a).
Definition rotate (c : Canvas) (degrees : Z) : Canvas :=
  emit_op c (RotateCTM degrees).

(** [c.drawString(x, y, text)]: a text object placed at [(x, y)].  It shows
    [text], except that nothing is shown for the empty string: the object
    then holds only the move to the next line. *)
Definition text_object (x y : Z) (text : string) : op :=
  match text with
  | EmptyString => RawOp "T*"
  | _ => DrawString x y text
  end.

Definition drawString (c : Canvas) (x y : Z) (text : string) : Canvas :=
  emit_op c (text_object x y text).

(** [c.showPage()]: close the current page and start the next one. *)
Definition showPage (c : Canvas) : Canvas :=
  mkCanvas (filename c) (pagesize c) []
    (finished c ++ [Page (code c) (Box 0 0 (pagesize c).1 (pagesize c).2) 0])
    (pageNumber c + 1).

(** [c.getPageNumber()] *)
Definition getPageNumber (c : Canvas) : Z := pageNumber c.

(** [c.save()]: emit the page in progress if anything was drawn on it,
    then write the document to the file. *)
Definition save (c : Canvas) : io unit :=
  let c' := match code c with [] => c | _ => showPage c end in
  os.open_w (filename c') >>
  os.write (filename c') (Pdf (finished c')).

End canvas.

(** ** The host

    Four things the script obtains are outside the page model: the text
    PyPDF2 reconstructs from a page (its layout heuristics are not
    modelled), the size of a file in bytes, the document information
    dictionary and the text Python prints for a [float].  They are taken
    from the host. *)

Record host := Host {
  page_text : page → string;                     (* page.extract_text() *)
  getsize : path → Z;                            (* os.path.getsize *)
  metadata : path → list (string * string);      (* reader.metadata.items() *)
  float_str : Z → string                         (* str(float(x)) *)
}.

(** ** The methods of [PDFTool] *)

Module PDFTool.

(** The [for file_path in input_files] loop of [merge_pdfs], which returns
    from the method at the first missing file. *)
Fixpoint merge_loop (merger : list (path * list page))
    (input_files : list path) : io (flow (list (path * list page))) :=
  match input_files with
  | [] => ret (Next merger)
  | file_path :: rest =>
      let* found := os.exists_ file_path in
      if negb found then
        logger.error ("File not found: " +:+ path_str file_path) >>
        ret (Returned false)
      else
        logger.info ("Adding " +:+ path_str file_path +:+ " to merge") >>
        let* merger' := PyPDF2.append merger file_path in
        merge_loop merger' rest
  end.

Definition merge_pdfs (input_files : list path) (output_file : path) : io bool :=
  try_except
    (let merger := PyPDF2.PdfMerger in
     let* r := merge_loop merger input_files in
     match r with
     | Returned b => ret b
     | Next merger =>
         os.open_w output_file >>
         PyPDF2.write merger output_file >>
         logger.info ("Successfully merged "
                      +:+ Py.str (Z.of_nat (length input_files))
                      +:+ " files into " +:+ path_str output_file) >>
         ret true
     end)
    (λ e, logger.error ("Error merging PDFs: " +:+ exn_str e) >> ret false).

(** Name of the chunk that starts at page index [i] and ends before
    [end_page]. *)
Definition output_filename (base_name : string) (pages_per_file i end_page : Z)
  : string :=
  if decide (pages_per_file = 1)
  then base_name +:+ "_page_" +:+ Py.str (i + 1) +:+ ".pdf"
  else base_name +:+ "_pages_" +:+ Py.str (i + 1) +:+ "-"
       +:+ Py.str end_page +:+ ".pdf".

(** Body of the [for i in range(0, total_pages, pages_per_file)] loop. *)
Definition split_chunk (input_file output_dir : path) (pages_per_file : Z)
    (reader_pages : list page) (i : Z) : io unit :=
  let total_pages := Z.of_nat (length reader_pages) in
  let writer := PyPDF2.PdfWriter in
  let end_page := Z.min (i + pages_per_file) total_pages in
  let* page_nums := lift (Py.range i end_page 1) in
  let* writer :=
    foldM (λ writer page_num,
             let* pg := lift (Py.getitem reader_pages page_num) in
             ret (PyPDF2.add_page writer pg))
          writer page_nums in
  let base_name := Path.stem input_file in
  let name := output_filename base_name pages_per_file i end_page in
  let output_path := os.join output_dir name in
  os.open_w output_path >>
  os.write output_path (Pdf writer) >>
  logger.info ("Created: " +:+ name).

Definition split_pdf (input_file output_dir : path) (pages_per_file : Z)
  : io bool :=
  try_except
    (let* found := os.exists_ input_file in
     if negb found then
       logger.error ("Input file not found: " +:+ path_str input_file) >>
       ret false
     else
       Path.mkdir_parents output_dir >>
       let* file := os.open_rb input_file in
       let* reader_pages := PyPDF2.PdfReader input_file file in
       let total_pages := Z.of_nat (length reader_pages) in
       logger.info ("Splitting " +:+ path_str input_file +:+ " ("
                    +:+ Py.str total_pages +:+ " pages)") >>
       let* starts := lift (Py.range 0 total_pages pages_per_file) in
       for_each starts
         (split_chunk input_file output_dir pages_per_file reader_pages) >>
       logger.info ("Successfully split into " +:+ path_str output_dir) >>
       ret true)
    (λ e, logger.error ("Error splitting PDF: " +:+ exn_str e) >> ret false).

(** The entry appended to [text_content] for the page numbered [page_num]:
    [f"=== Page {page_num} ===\n{text}\n"] with [text = page.extract_text()]. *)
Definition text_entry (h : host) (page_num : Z) (pg : page) : string :=
  let text := page_text h pg in
  "=== Page " +:+ Py.str page_num +:+ " ===" +:+ nl +:+ text +:+ nl.

(** [for page_num, page in enumerate(reader.pages, 1)] *)
Fixpoint text_loop (h : host) (text_content : list string) (page_num : Z)
    (pages : list page) : list string :=
  match pages with
  | [] => text_content
  | pg :: rest =>
      text_loop h (text_content ++ [text_entry h page_num pg]) (page_num + 1) rest
  end.

(** [output_file] is [None] when the text goes to the standard output: no
    output was named.  [h] supplies [page.extract_text()]. *)
Definition extract_text (h : host) (input_file : path)
    (output_file : option path) : io bool :=
  try_except
    (let* found := os.exists_ input_file in
     if negb found then
       logger.error ("Input file not found: " +:+ path_str input_file) >>
       ret false
     else
       let text_content := [] in
       let* file := os.open_rb input_file in
       let* reader_pages := PyPDF2.PdfReader input_file file in
       logger.info ("Extracting text from "
                    +:+ Py.str (Z.of_nat (length reader_pages)) +:+ " pages") >>
       let text_content := text_loop h text_content 1 reader_pages in
       let full_text := Py.join nl text_content in
       match output_file with
       | Some out =>
           os.open_w out >>
           os.write out (Bytes full_text) >>
           logger.info ("Text saved to: " +:+ path_str out)
       | None => Py.print full_text
       end >>
       ret true)
    (λ e, logger.error ("Error extracting text: " +:+ exn_str e) >> ret false).

Definition rotate_pdf (input_file : path) (angle : Z) (output_file : path)
  : io bool :=
  try_except
    (let* found := os.exists_ input_file in
     if negb found then
       logger.error ("Input file not found: " +:+ path_str input_file) >>
       ret false
     else if decide (angle `mod` 90 ≠ 0) then
       logger.error "Angle must be a multiple of 90 degrees" >>
       ret false
     else
       let* file := os.open_rb input_file in
       let* reader_pages := PyPDF2.PdfReader input_file file in
       let writer := PyPDF2.PdfWriter in
       logger.info ("Rotating " +:+ Py.str (Z.of_nat (length reader_pages))
                    +:+ " pages by " +:+ Py.str angle +:+ " degrees") >>
       let* writer :=
         foldM (λ writer pg,
                  let* rotated_page := lift (PyPDF2.rotate pg angle) in
                  ret (PyPDF2.add_page writer rotated_page))
               writer reader_pages in
       os.open_w output_file >>
       os.write output_file (Pdf writer) >>
       logger.info ("Rotated PDF saved as: " +:+ path_str output_file) >>
       ret true)
    (λ e, logger.error ("Error rotating PDF: " +:+ exn_str e) >> ret false).

Definition watermark_file : path := ["temp_watermark.pdf"].

(** The one-page overlay drawn by [add_watermark]. *)
Definition watermark_canvas (watermark_text : string) : canvas.Canvas :=
  let c := canvas.new watermark_file letter in
  let c := canvas.setFont c "Helvetica" 50 in
  let c := canvas.setFillAlpha c (3 # 10)%Q in
  let c := canvas.rotate c 45 in
  canvas.drawString c 200 200 watermark_text.

Definition add_watermark (input_file : path) (watermark_text : string)
    (output_file : path) : io bool :=
  try_except
    (let* found := os.exists_ input_file in
     if negb found then
       logger.error ("Input file not found: " +:+ path_str input_file) >>
       ret false
     else
       let c := watermark_canvas watermark_text in
       canvas.save c >>
       let* file := os.open_rb input_file in
       let* reader_pages := PyPDF2.PdfReader input_file file in
       let writer := PyPDF2.PdfWriter in
       let* wm_file := os.open_rb watermark_file in
       let* watermark := PyPDF2.PdfReader watermark_file wm_file in
       let* watermark_page := lift (Py.getitem watermark 0) in
       let writer :=
         fold_left (λ writer pg,
                      PyPDF2.add_page writer (PyPDF2.merge_page pg watermark_page))
                   reader_pages writer in
       os.open_w output_file >>
       os.write output_file (Pdf writer) >>
       os.remove watermark_file >>
       logger.info ("Watermarked PDF saved as: " +:+ path_str output_file) >>
       ret true)
    (λ e, logger.error ("Error adding watermark: " +:+ exn_str e) >> ret false).

(** [for line in lines] of [create_sample_pdf]: the canvas and the vertical
    cursor after drawing [lines]. *)
Fixpoint draw_lines (c : canvas.Canvas) (height y_position : Z)
    (lines : list string) : canvas.Canvas * Z :=
  match lines with
  | [] => (c, y_position)
  | line :: rest =>
      let '(c, y_position) :=
        if decide (y_position < 50)
        then (canvas.showPage c, height - 50)
        else (c, y_position) in
      let c := canvas.drawString c 100 y_position line in
      draw_lines c height (y_position - 20) rest
  end.

(** The canvas of [create_sample_pdf] just before [c.save()]. *)
Definition sample_canvas (output_file : path) (content : string)
  : canvas.Canvas :=
  let c := canvas.new output_file letter in
  let '(width, height) := letter in
  let c := canvas.setFont c "Helvetica-Bold" 24 in
  let c := canvas.drawString c 100 (height - 100) "Sample PDF Document" in
  let c := canvas.setFont c "Helvetica" 12 in
  let lines := Py.split (ascii_of_nat 10) content in
  let y_position := height - 150 in
  let '(c, _) := draw_lines c height y_position lines in
  let c := canvas.setFont c "Helvetica" 10 in
  canvas.drawString c (width - 100) 30
    ("Page " +:+ Py.str (canvas.getPageNumber c)).

Definition create_sample_pdf (output_file : path) (content : string) : io bool :=
  try_except
    (let c := sample_canvas output_file content in
     canvas.save c >>
     logger.info ("Sample PDF created: " +:+ path_str output_file) >>
     ret true)
    (λ e, logger.error ("Error creating PDF: " +:+ exn_str e) >> ret false).

End PDFTool.

(** ** The remaining method and the command line *)

(** The operations [argparse] lets through. *)
Inductive operation :=
  | OpMerge
  | OpSplit
  | OpExtractText
  | OpRotate
  | OpWatermark
  | OpInfo
  | OpCreate.

(** The namespace returned by [parser.parse_args()]. *)
Record args := Args {
  arg_operation : operation;
  arg_input : list path;
  arg_output : option path;
  arg_angle : Z;
  arg_watermark : option string;
  arg_pages : Z;
  arg_content : string
}.

Module CLI.

(** [PDFTool.get_pdf_info] *)
Definition get_pdf_info (h : host) (input_file : path) : io bool :=
  try_except
    (let* found := os.exists_ input_file in
     if negb found then
       logger.error ("Input file not found: " +:+ path_str input_file) >>
       ret false
     else
       let* file := os.open_rb input_file in
       let* reader_pages := PyPDF2.PdfReader input_file file in
       Py.print (nl +:+ "=== PDF Information: " +:+ path_str input_file +:+ " ===") >>
       Py.print ("Number of pages: " +:+ Py.str (Z.of_nat (length reader_pages))) >>
       Py.print ("File size: " +:+ Py.str (getsize h input_file) +:+ " bytes") >>
       match metadata h input_file with
       | [] => ret tt
       | items =>
           Py.print (nl +:+ "Metadata:") >>
           for_each items
             (λ kv, Py.print ("  " +:+ kv.1 +:+ ": " +:+ kv.2))
       end >>
       match reader_pages with
       | [] => ret tt
       | _ =>
           let* first_page := lift (Py.getitem reader_pages 0) in
           let mediabox := mediabox first_page in
           Py.print (nl +:+ "First page dimensions:") >>
           Py.print ("  Width: " +:+ float_str h (urx mediabox - llx mediabox)
                      +:+ " points") >>
           Py.print ("  Height: " +:+ float_str h (ury mediabox - lly mediabox)
                      +:+ " points")
       end >>
       ret true)
    (λ e, logger.error ("Error getting PDF info: " +:+ exn_str e) >> ret false).

(** [f'{prefix}{p}'] for a path [p] written as a plain relative path (its
    components joined by separators, nothing else): the text goes in front
    of the first component. *)
Definition prefixed (prefix : string) (p : path) : path :=
  match p with
  | [] => [prefix]
  | c :: rest => (prefix +:+ c) :: rest
  end.

(** [0 if success else 1] *)
Definition exit_code (success : bool) : Z := if success then 0 else 1.

(** [main()] after [parser.parse_args()]. *)
Definition main (h : host) (a : args) : io Z :=
  try_except
    (match arg_operation a with
     | OpMerge =>
         if decide (length (arg_input a) < 2)%nat then
           Py.print "Error: Merge operation requires at least 2 input files" >>
           ret 1
         else
           let output := default ["merged.pdf"] (arg_output a) in
           let* success := PDFTool.merge_pdfs (arg_input a) output in
           ret (exit_code success)
     | OpSplit =>
         match arg_input a with
         | [] =>
             Py.print "Error: Split operation requires input file" >> ret 1
         | input0 :: _ =>
             let output := default ["split_output"] (arg_output a) in
             let* success := PDFTool.split_pdf input0 output (arg_pages a) in
             ret (exit_code success)
         end
     | OpExtractText =>
         match arg_input a with
         | [] =>
             Py.print "Error: Extract-text operation requires input file" >>
             ret 1
         | input0 :: _ =>
             let* success := PDFTool.extract_text h input0 (arg_output a) in
             ret (exit_code success)
         end
     | OpRotate =>
         match arg_input a with
         | [] =>
             Py.print "Error: Rotate operation requires input file" >> ret 1
         | input0 :: _ =>
             let output := default (prefixed "rotated_" input0) (arg_output a) in
             let* success := PDFTool.rotate_pdf input0 (arg_angle a) output in
             ret (exit_code success)
         end
     | OpWatermark =>
         match arg_input a, arg_watermark a with
         | input0 :: _, Some (String c text) =>
             let output :=
               default (prefixed "watermarked_" input0) (arg_output a) in
             let* success :=
               PDFTool.add_watermark input0 (String c text) output in
             ret (exit_code success)
         | _, _ =>
             Py.print
               "Error: Watermark operation requires input file and watermark text" >>
             ret 1
         end
     | OpInfo =>
         match arg_input a with
         | [] =>
             Py.print "Error: Info operation requires input file" >> ret 1
         | input0 :: _ =>
             let* success := get_pdf_info h input0 in
             ret (exit_code success)
         end
     | OpCreate =>
         let output := default ["sample.pdf"] (arg_output a) in
         let* success := PDFTool.create_sample_pdf output (arg_content a) in
         ret (exit_code success)
     end)
    (λ e, logger.error ("Unexpected error: " +:+ exn_str e) >> ret 1).

End CLI.

(** ** Vocabulary of the statements *)

(** The file system calls of a trace, without log lines and prints. *)
Definition is_sys (e : event) : bool :=
  match e with
  | Log _ _ | Print _ => false
  | _ => true
  end.

Definition sys_events (t : list event) : list event := filter is_sys t.

(** A regular file can be created or truncated at [p]. *)
Definition writable (m : gmap path node) (p : path) : Prop :=
  fs_lookup m (parent p) = Some Dir ∧ fs_lookup m p ≠ Some Dir.

(** No component on the way to [p] (nor [p] itself) is a regular file. *)
Definition no_file_prefix (m : gmap path node) (p : path) : Prop :=
  ∀ q d, q `prefix_of` p → fs_lookup m q ≠ Some (File d).

(** Every entry lives in a directory. *)
Definition wf_fs (m : gmap path node) : Prop :=
  ∀ p x, m !! p = Some x → fs_lookup m (parent p) = Some Dir.

(** The file at [p] parses to the pages [ps]. *)
Definition loads (m : gmap path node) (p : path) (ps : list page) : Prop :=
  fs_lookup m p = Some (File (Pdf ps)).

(** The page with [angle] added to its /Rotate and nothing else touched. *)
Definition rotated (angle : Z) (pg : page) : page :=
  Page (contents pg) (mediabox pg) (rotation pg + angle).

(** The overlay page that [add_watermark] stamps on every page. *)
Definition overlay_page (watermark_text : string) : page :=
  Page (canvas.code (PDFTool.watermark_canvas watermark_text))
       (Box 0 0 letter.1 letter.2) 0.

(** Decidable forms of the side conditions, for concrete file systems. *)
Definition is_dir_at (m : gmap path node) (q : path) : bool :=
  match fs_lookup m q with Some Dir => true | _ => false end.

Definition wf_fsb (m : gmap path node) : bool :=
  forallb (λ e, is_dir_at m (parent e.1)) (map_to_list m).

Definition writableb (m : gmap path node) (p : path) : bool :=
  is_dir_at m (parent p) && negb (is_dir_at m p).

Definition no_dir_atb (m : gmap path node) (ps : list path) : bool :=
  forallb (λ q, negb (is_dir_at m q)) ps.

(** A five-page document whose pages are told apart by their text. *)
Definition numbered_page (i : Z) : page :=
  Page [DrawString 100 700 (Py.str i)] (Box 0 0 612 792) 0.
Definition five_pages : list page := numbered_page <$> [1; 2; 3; 4; 5].
Definition report_world : world :=
  World {[ ["report.pdf"] := File (Pdf five_pages) ]} [].

(** The documents written during a trace, in order. *)
Fixpoint written (t : list event) : list (path * data) :=
  match t with
  | [] => []
  | SysWrite p d :: t' => (p, d) :: written t'
  | _ :: t' => written t'
  end.

(** [ceil(n / k)] *)
Definition ceil_div (n k : Z) : Z := (n + k - 1) / k.

(** Pages [j*k, (j+1)*k) of [ps], cut at the end of the document. *)
Definition chunk (k : Z) (ps : list page) (j : nat) : list page :=
  take (Z.to_nat k) (drop (j * Z.to_nat k) ps).

(** Where [split_pdf] stores chunk [j] of an [n]-page input. *)
Definition chunk_path (input_file output_dir : path) (k n : Z) (j : nat) : path :=
  os.join output_dir
    (PDFTool.output_filename (Path.stem input_file) k
       (Z.of_nat j * k) (Z.min (Z.of_nat j * k + k) n)).

(** The texts drawn at the page-number position of a letter page. *)
Fixpoint page_labels (c : list op) : list string :=
  match c with
  | [] => []
  | DrawString x y t :: c' =>
      if decide (x = letter.1 - 100 ∧ y = 30) then t :: page_labels c'
      else page_labels c'
  | _ :: c' => page_labels c'
  end.

(** The file system after chunk [j] of [split_pdf] was stored. *)
Definition store_chunk (input_file output_dir : path) (k : Z) (ps : list page)
    (m : gmap path node) (j : nat) : gmap path node :=
  <[chunk_path input_file output_dir k (Z.of_nat (length ps)) j
      := File (Pdf (chunk k ps j))]> m.

(** The events of storing chunk [j]. *)
Definition chunk_trace (input_file output_dir : path) (k : Z) (ps : list page)
    (j : nat) : list event :=
  let p := chunk_path input_file output_dir k (Z.of_nat (length ps)) j in
  [SysOpenW p; SysWrite p (Pdf (chunk k ps j));
   Log INFO ("Created: " +:+ default "" (last p))].

(** What [mkdir(parents=True, exist_ok=True)] leaves behind. *)
Record mkdir_post (m m' : gmap path node) (p : path) : Prop := {
  mkdir_dir : fs_lookup m' p = Some Dir;
  mkdir_keeps : ∀ q x, fs_lookup m q = Some x → fs_lookup m' q = Some x;
  mkdir_frame : ∀ q, ¬ q `prefix_of` p → fs_lookup m' q = fs_lookup m q;
  mkdir_wf : wf_fs m → wf_fs m';
  mkdir_clear : no_file_prefix m' p
}.

(** No character of [s] is a dash. *)
Fixpoint no_dash (s : string) : Prop :=
  match s with
  | EmptyString => True
  | String c s' => c ≠ "-"%char ∧ no_dash s'
  end.

(** No label has been drawn so far, and the page counter is the number of
    the page in progress. *)
Definition unlabelled (c : canvas.Canvas) : Prop :=
  page_labels (canvas.code c) = [] ∧
  Forall (λ pg, page_labels (contents pg) = []) (canvas.finished c) ∧
  canvas.pageNumber c = Z.of_nat (length (canvas.finished c)) + 1.

(** A body of [n] one-character lines. *)
Definition body_of_lines (n : nat) : string := Py.join nl (replicate n "x").

(** A world whose only file is not a PDF. *)
Definition broken_world : world :=
  World {[ ["broken.pdf"] := File (Bytes "not a pdf") ]} [].

(** A one-page document in the working directory. *)
Definition blank_page : page := Page [] (Box 0 0 612 792) 0.
Definition one_page_world : world :=
  World {[ ["doc.pdf"] := File (Pdf [blank_page]) ]} [].

(** Two documents side by side, for the examples about several sources. *)
Definition two_docs_world : world :=
  World (<[ ["a.pdf"] := File (Pdf (numbered_page <$> [1; 2])) ]>
           {[ ["b.pdf"] := File (Pdf (numbered_page <$> [3])) ]}) [].

(** The log line [merge_pdfs] writes for each source it appends. *)
Definition adding_line (file_path : path) : event :=
  Log INFO ("Adding " +:+ path_str file_path +:+ " to merge").

(** The pages [create_sample_pdf] writes. *)
Definition sample_pages (output_file : path) (content : string) : list page :=
  canvas.finished (canvas.showPage (PDFTool.sample_canvas output_file content)).

(** How many lines fit on the page in progress when the cursor is at [y]. *)
Definition capacity (y : Z) : Z :=
  if decide (y < 50) then 0 else (y - 50) / 20 + 1.


(** A text operator inside the letter page: not below the label line, not
    above the top margin, and in the body column not below the bottom
    margin. *)
Definition in_margins (o : op) : Prop :=
  match o with
  | DrawString x y _ => 30 ≤ y ≤ 742 ∧ (x = 100 → 50 ≤ y)
  | _ => True
  end.

(** The lines [get_pdf_info] prints for a document with the pages [ps]. *)
Definition info_lines (h : host) (input_file : path) (ps : list page)
  : list string :=
  [nl +:+ "=== PDF Information: " +:+ path_str input_file +:+ " ===";
   "Number of pages: " +:+ Py.str (Z.of_nat (length ps));
   "File size: " +:+ Py.str (getsize h input_file) +:+ " bytes"]
  ++ match metadata h input_file with
     | [] => []
     | items =>
         (nl +:+ "Metadata:")
         :: ((λ kv : string * string, "  " +:+ kv.1 +:+ ": " +:+ kv.2) <$> items)
     end
  ++ match ps with
     | [] => []
     | pg :: _ =>
         [nl +:+ "First page dimensions:";
          "  Width: " +:+ float_str h (urx (mediabox pg) - llx (mediabox pg))
            +:+ " points";
          "  Height: " +:+ float_str h (ury (mediabox pg) - lly (mediabox pg))
            +:+ " points"]
     end.

(** A host that reports nothing of interest. *)
Definition plain_host : host := Host (λ _, "") (λ _, 0) (λ _, []) (λ _, "").

(** A host whose text extraction gives the operands of the show-text
    operators of the page, one per line. *)
Definition reading_host : host :=
  Host (λ pg, String.concat "" ((λ t, t +:+ nl) <$> PyPDF2.shown_text (contents pg)))
       (λ _, 0) (λ _, []) (λ _, "").

(** A document inside a directory. *)
Definition nested_world : world :=
  World (<[ ["docs"] := Dir ]>
           {[ ["docs"; "doc.pdf"] := File (Pdf [blank_page]) ]}) [].

(** ** Properties *)

(** A path is none of the listed ones, each of which differs from it. *)
Ltac not_in_list :=
  let H := fresh in
  intros H; repeat (apply elem_of_cons in H as [H|H]; [done|]);
  by apply elem_of_nil in H.

(** Unfolding of the primitive operations, for symbolic execution. *)
Ltac io_unfold :=
  unfold try_except, bind, ret, raise, lift, emit, os.exists_, os.open_rb,
    os.open_w, os.write, os.remove, logger.info, logger.error, Py.print.

(** *** Text extraction *)

Lemma text_loop_run h ps : ∀ acc n,
  PDFTool.text_loop h acc (Z.of_nat n + 1) ps
  = acc ++ imap (λ i pg,
                   "=== Page " +:+ Py.str (Z.of_nat (n + i) + 1) +:+ " ===" +:+ nl
                   +:+ page_text h pg +:+ nl) ps.
Proof.
  induction ps as [|pg ps IH]; intros acc n; cbn [PDFTool.text_loop imap].
  - by rewrite app_nil_r.
  - replace (Z.of_nat n + 1 + 1) with (Z.of_nat (S n) + 1) by lia.
    rewrite IH, <-app_assoc. cbn [app]. rewrite Nat.add_0_r.
    do 2 f_equal. apply imap_ext. intros i x _. cbn.
    by replace (S (n + i)) with (n + S i)%nat by lia.
Qed.

(** C9.  On a readable [n]-page document [extract_text] builds exactly [n]
    entries, in page order: entry [i] (from 0) is the header
    [=== Page i+1 ===] with the 1-based page number, a line feed, the text
    the library extracts from page [i] of the document, and a line feed.
    The entries joined by line feeds are what is printed, or what is
    written to the output file when one is given; nothing else is printed
    or written. *)
Theorem extract_text_entries h w input_file ps :
  loads (fs w) input_file ps →
  let entry (i : nat) (pg : page) :=
    "=== Page " +:+ Py.str (Z.of_nat i + 1) +:+ " ===" +:+ nl
    +:+ page_text h pg +:+ nl in
  let entries := imap entry ps in
  let full_text := Py.join nl entries in
  let count :=
    Log INFO ("Extracting text from " +:+ Py.str (Z.of_nat (length ps))
              +:+ " pages") in
  length entries = length ps ∧
  (∀ i pg, ps !! i = Some pg → entries !! i = Some (entry i pg)) ∧
  PDFTool.extract_text h input_file None w
  = (Return true, World (fs w) (trace w ++ [count; Print full_text])) ∧
  (∀ out, writable (fs w) out →
     PDFTool.extract_text h input_file (Some out) w
     = (Return true,
        World (<[out := File (Bytes full_text)]> (fs w))
          (trace w ++ [count; SysOpenW out; SysWrite out (Bytes full_text);
                       Log INFO ("Text saved to: " +:+ path_str out)]))).
Proof.
  intros Hin entry entries full_text count.
  assert (PDFTool.text_loop h [] 1 ps = entries) as Hloop.
  { exact (text_loop_run h ps [] 0). }
  unfold loads in Hin. split; [|split; [|split]].
  - unfold entries. by rewrite length_imap.
  - intros i pg Hi. unfold entries. by rewrite list_lookup_imap, Hi.
  - unfold PDFTool.extract_text. io_unfold. simpl.
    repeat (rewrite Hin; simpl). rewrite Hloop.
    by rewrite <-!app_assoc.
  - intros out [Hpar Hnd]. destruct w as [m t]. cbn [fs trace] in *.
    unfold PDFTool.extract_text. io_unfold. simpl.
    repeat (rewrite Hin; simpl). rewrite Hloop, Hpar.
    destruct (fs_lookup m out) as [[|d]|]; [done|..];
      unfold emit; cbn [fs trace];
      by rewrite insert_insert_eq, <-!app_assoc.
Qed.

(** The five-page report: five entries, the second of them headed by page
    number 2 and holding the text of the second page, and the printed
    text. *)
Lemma extract_text_entries_witness :
  let entries :=
    ["=== Page 1 ===" +:+ nl +:+ "1" +:+ nl +:+ nl;
     "=== Page 2 ===" +:+ nl +:+ "2" +:+ nl +:+ nl;
     "=== Page 3 ===" +:+ nl +:+ "3" +:+ nl +:+ nl;
     "=== Page 4 ===" +:+ nl +:+ "4" +:+ nl +:+ nl;
     "=== Page 5 ===" +:+ nl +:+ "5" +:+ nl +:+ nl] in
  PDFTool.extract_text reading_host ["report.pdf"] None report_world
  = (Return true,
     World (fs report_world)
       [Log INFO "Extracting text from 5 pages"; Print (Py.join nl entries)]).
Proof.
  intros entries.
  destruct (extract_text_entries reading_host report_world ["report.pdf"]
              five_pages) as (_ & _ & Hprint & _).
  - reflexivity.
  - rewrite Hprint. reflexivity.
Defined.

(** *** File system facts *)

Lemma parent_snoc (p : path) x : parent (p ++ [x]) = p.
Proof. unfold parent. by rewrite removelast_last. Qed.

Lemma fs_lookup_insert (m : gmap path node) p x q :
  p ≠ [] →
  fs_lookup (<[p := x]> m) q = if decide (p = q) then Some x else fs_lookup m q.
Proof.
  intros Hp. destruct q as [|c q]; simpl.
  - by rewrite decide_False.
  - apply lookup_insert.
Qed.

Lemma writable_nonroot m p : writable m p → p ≠ [].
Proof. intros [_ H] ->. by apply H. Qed.

Lemma sys_events_app t1 t2 : sys_events (t1 ++ t2) = sys_events t1 ++ sys_events t2.
Proof. apply filter_app. Qed.

Lemma sys_events_log t lvl msg : sys_events (t ++ [Log lvl msg]) = sys_events t.
Proof. rewrite sys_events_app. simpl. apply app_nil_r. Qed.

Lemma bind_assoc {A B C} (m : io A) (f : A → io B) (g : B → io C) w :
  bind (bind m f) g w = bind m (λ x, bind (f x) g) w.
Proof. unfold bind. by destruct (m w) as [[a|e] w']. Qed.

(** Creating (or truncating) a file and writing it in one go. *)
Lemma write_file_run {A} m t p d (k : io A) :
  writable m p →
  bind (os.open_w p) (λ _, bind (os.write p d) (λ _, k)) (World m t)
  = k (World (<[p := File d]> m) (t ++ [SysOpenW p; SysWrite p d])).
Proof.
  intros [Hpar Hp]. io_unfold. simpl. rewrite Hpar.
  destruct (fs_lookup m p) as [[|d']|]; [done|..]; simpl;
    by rewrite insert_insert_eq, <-app_assoc.
Qed.

(** *** Checking the side conditions by computation *)

Lemma no_file_prefix_check m p : no_file_prefixb m p = true → no_file_prefix m p.
Proof.
  unfold no_file_prefixb. rewrite forallb_forall. intros H q d Hq Hl.
  assert (In q (prefixes p)) as Hin.
  { apply list_elem_of_In, list_elem_of_fmap. exists (length q). split.
    - destruct Hq as [r ->]. by rewrite take_app_length.
    - apply elem_of_seq. apply prefix_length in Hq. lia. }
  apply H in Hin. unfold is_file_at in Hin. by rewrite Hl in Hin.
Qed.

Lemma no_file_prefix_holds m p : no_file_prefix m p → no_file_prefixb m p = true.
Proof.
  intros H. unfold no_file_prefixb. apply forallb_forall. intros q Hq.
  apply list_elem_of_In, list_elem_of_fmap in Hq as (i & -> & _).
  unfold is_file_at.
  destruct (fs_lookup m (take i p)) as [[|d]|] eqn:Hl; try done.
  by destruct (H (take i p) d (prefix_take p i)).
Qed.

Lemma wf_fs_check m : wf_fsb m = true → wf_fs m.
Proof.
  unfold wf_fsb. rewrite forallb_forall. intros H p x Hp.
  assert (In (p, x) (map_to_list m)) as Hin
    by (by apply list_elem_of_In, elem_of_map_to_list).
  apply H in Hin. unfold is_dir_at in Hin. simpl in Hin.
  by destruct (fs_lookup m (parent p)) as [[|d]|].
Qed.

Lemma writable_check m p : writableb m p = true → writable m p.
Proof.
  unfold writableb, is_dir_at, writable. intros [H1 H2]%andb_true_iff.
  destruct (fs_lookup m (parent p)) as [[|d]|]; [|done..].
  split; [done|]. intros Hp. by rewrite Hp in H2.
Qed.

Lemma no_dir_at_check m (f : nat → path) count :
  no_dir_atb m (f <$> seq 0 count) = true →
  ∀ j, (j < count)%nat → fs_lookup m (f j) ≠ Some Dir.
Proof.
  unfold no_dir_atb. rewrite forallb_forall. intros H j Hj Hl.
  assert (In (f j) (f <$> seq 0 count)) as Hin.
  { apply list_elem_of_In, list_elem_of_fmap. exists j. split; [done|].
    apply elem_of_seq. lia. }
  apply H in Hin. unfold is_dir_at in Hin. by rewrite Hl in Hin.
Qed.

(** *** Merge *)

Lemma merge_loop_frame files : ∀ merger w,
  fs (PDFTool.merge_loop merger files w).2 = fs w ∧
  sys_events (trace (PDFTool.merge_loop merger files w).2) = sys_events (trace w).
Proof.
  induction files as [|f files IH]; intros merger w; simpl; [done|].
  unfold PyPDF2.append. io_unfold. simpl.
  destruct (fs_lookup (fs w) f) as [[|[s|ps]]|] eqn:Hf; simpl;
    rewrite ?Hf; simpl; rewrite ?sys_events_log; try done.
  destruct (IH (merger ++ [(f, ps)])
              (World (fs w) (trace w ++ [Log INFO ("Adding " +:+ path_str f +:+ " to merge")])))
    as [-> ->].
  simpl. by rewrite sys_events_log.
Qed.

Lemma merge_loop_stops files : ∀ merger w f,
  f ∈ files → (∀ ps, ¬ loads (fs w) f ps) →
  (PDFTool.merge_loop merger files w).1 = Return (Returned false) ∨
  ∃ e, (PDFTool.merge_loop merger files w).1 = Raise e.
Proof.
  induction files as [|g files IH]; intros merger w f Hf Hbad.
  { by apply elem_of_nil in Hf. }
  simpl. unfold PyPDF2.append. io_unfold. simpl.
  destruct (fs_lookup (fs w) g) as [[|[s|ps]]|] eqn:Hg; simpl;
    rewrite ?Hg; simpl; eauto.
  apply elem_of_cons in Hf as [->|Hf].
  { by destruct (Hbad ps). }
  by apply (IH _ _ f).
Qed.

(** When every source loads the loop queues them all, logging one line for
    each. *)
Lemma merge_loop_trace files : ∀ docs merger w,
  Forall2 (loads (fs w)) files docs →
  PDFTool.merge_loop merger files w
  = (Return (Next (merger ++ zip files docs)),
     World (fs w) (trace w ++ (adding_line <$> files))).
Proof.
  induction files as [|f files IH]; intros docs merger w Hall.
  - apply Forall2_nil_inv_l in Hall as ->. simpl. rewrite !app_nil_r.
    by destruct w.
  - apply Forall2_cons_inv_l in Hall as (ps & docs' & Hf & Hall & ->).
    simpl. unfold PyPDF2.append. io_unfold. simpl.
    unfold loads in Hf. repeat (rewrite Hf; simpl).
    change (Log INFO ("Adding " +:+ path_str f +:+ " to merge"))
      with (adding_line f).
    rewrite (IH docs' (merger ++ [(f, ps)])
               (World (fs w) (trace w ++ [adding_line f])) Hall).
    simpl. by rewrite <-!app_assoc.
Qed.

Lemma sys_events_adding files : sys_events (adding_line <$> files) = [].
Proof. induction files as [|f files IH]; [done|]. by rewrite fmap_cons. Qed.

(** Reading the queued sources while they all still load. *)
Lemma read_sources_run files : ∀ docs pages w,
  Forall2 (loads (fs w)) files docs →
  foldM PyPDF2.read_source pages (zip files docs) w
  = (Return (pages ++ concat docs), w).
Proof.
  induction files as [|f files IH]; intros docs pages w Hall.
  - apply Forall2_nil_inv_l in Hall as ->. simpl. by rewrite app_nil_r.
  - apply Forall2_cons_inv_l in Hall as (ps & docs' & Hf & Hall & ->).
    assert (PyPDF2.read_source pages (f, ps) w = (Return (pages ++ ps), w))
      as Hstep.
    { unfold PyPDF2.read_source. cbn [fst snd]. destruct ps as [|pg ps].
      - by rewrite app_nil_r.
      - io_unfold. unfold loads in Hf. by rewrite Hf. }
    cbn [zip zip_with foldM]. unfold bind at 1. rewrite Hstep.
    rewrite (IH docs' (pages ++ ps) w Hall).
    cbn [concat]. by rewrite <-app_assoc.
Qed.

(** Opening the output leaves every other file as it was. *)
Lemma loads_after_open (m : gmap path node) (p : path) x (files : list path) docs :
  p ≠ [] → p ∉ files →
  Forall2 (loads m) files docs → Forall2 (loads (<[p := x]> m)) files docs.
Proof.
  intros Hp Hnotin Hall. induction Hall as [|f ps files docs Hf Hall IH].
  - constructor.
  - constructor.
    + unfold loads. rewrite fs_lookup_insert by done.
      rewrite decide_False; [done|]. intros ->. apply Hnotin. by left.
    + apply IH. intros Hin. apply Hnotin. by right.
Qed.

(** Creating (or truncating) the output and writing the merged document,
    when the output is none of the sources. *)
Lemma write_merged_run {A} m t files docs p (k : io A) :
  writable m p →
  p ∉ files →
  Forall2 (loads m) files docs →
  bind (os.open_w p) (λ _, bind (PyPDF2.write (zip files docs) p) (λ _, k))
    (World m t)
  = k (World (<[p := File (Pdf (concat docs))]> m)
         (t ++ [SysOpenW p; SysWrite p (Pdf (concat docs))])).
Proof.
  intros Hout Hnotin Hall.
  pose proof (writable_nonroot _ _ Hout) as Hp. destruct Hout as [Hpar Hnd].
  assert (os.open_w p (World m t)
          = (Return tt, World (<[p := File (Bytes "")]> m) (t ++ [SysOpenW p])))
    as Hopen.
  { unfold os.open_w. cbn [fs trace]. rewrite Hpar.
    by destruct (fs_lookup m p) as [[|d]|]. }
  unfold bind at 1. rewrite Hopen.
  unfold bind at 1. unfold PyPDF2.write. unfold bind at 1.
  rewrite (read_sources_run files docs []
             (World (<[p := File (Bytes "")]> m) (t ++ [SysOpenW p]))
             (loads_after_open m p (File (Bytes "")) files docs Hp Hnotin Hall)).
  unfold os.write. cbn [fs trace app].
  by rewrite insert_insert_eq, <-app_assoc.
Qed.

Lemma merge_pdfs_run w input_files docs output_file :
  Forall2 (loads (fs w)) input_files docs →
  writable (fs w) output_file →
  output_file ∉ input_files →
  PDFTool.merge_pdfs input_files output_file w
  = (Return true,
     World (<[output_file := File (Pdf (concat docs))]> (fs w))
       (trace w ++ (adding_line <$> input_files)
        ++ [SysOpenW output_file; SysWrite output_file (Pdf (concat docs))]
        ++ [Log INFO ("Successfully merged "
                      +:+ Py.str (Z.of_nat (length input_files))
                      +:+ " files into " +:+ path_str output_file)])).
Proof.
  intros Hall Hout Hnotin. unfold PDFTool.merge_pdfs, try_except.
  unfold bind at 1. rewrite (merge_loop_trace _ _ _ _ Hall).
  unfold PyPDF2.PdfMerger. rewrite app_nil_l.
  rewrite (write_merged_run _ _ _ docs) by done.
  unfold bind, logger.info, emit, ret. cbn [fst snd fs trace].
  by rewrite <-!app_assoc.
Qed.

(** C4, for the failures that show while the sources are appended.  When
    some source is missing or does not load as the disk stands when
    [merge_pdfs] is called, the method returns [False], the file system is
    left exactly as it was (so no output file is produced) and no file was
    opened for writing on the way. *)
Theorem merge_pdfs_atomic w input_files output_file f :
  f ∈ input_files →
  (∀ ps, ¬ loads (fs w) f ps) →
  let r := PDFTool.merge_pdfs input_files output_file w in
  r.1 = Return false ∧
  fs r.2 = fs w ∧
  sys_events (trace r.2) = sys_events (trace w).
Proof.
  intros Hf Hbad. cbv zeta.
  unfold PDFTool.merge_pdfs, try_except, bind.
  pose proof (merge_loop_frame input_files PyPDF2.PdfMerger w) as [Hfs Hsys].
  destruct (merge_loop_stops input_files PyPDF2.PdfMerger w f Hf Hbad) as [Hr|[e Hr]];
    destruct (PDFTool.merge_loop PyPDF2.PdfMerger input_files w) as [r w'];
    simpl in *; subst r; io_unfold; simpl.
  - done.
  - by rewrite sys_events_log.
Qed.

(** Merging an existing file with a missing one. *)
Lemma merge_pdfs_atomic_witness :
  (PDFTool.merge_pdfs [["doc.pdf"]; ["missing.pdf"]] ["merged.pdf"] one_page_world).1
  = Return false.
Proof.
  apply (merge_pdfs_atomic one_page_world [["doc.pdf"]; ["missing.pdf"]]
           ["merged.pdf"] ["missing.pdf"]).
  - apply elem_of_cons. right. apply elem_of_cons. by left.
  - intros ps. unfold loads. vm_compute. discriminate.
Defined.

(** C4 does not hold of a source that fails to load while the merged
    document is written.  [a.pdf] and [b.pdf] both load when they are
    appended; with [a.pdf] named as the output, opening the output
    truncates it, its pages can no longer be read, and [merge_pdfs] returns
    [False] after it has changed the disk: the only file opened for writing
    is [a.pdf], nothing was written to it, and it is left empty. *)
Lemma merge_into_a_source_truncates_it :
  let w := two_docs_world in
  let r := PDFTool.merge_pdfs [["a.pdf"]; ["b.pdf"]] ["a.pdf"] w in
  loads (fs w) ["a.pdf"] (numbered_page <$> [1; 2]) ∧
  loads (fs w) ["b.pdf"] (numbered_page <$> [3]) ∧
  r.1 = Return false ∧
  fs r.2 ≠ fs w ∧
  fs_lookup (fs r.2) ["a.pdf"] = Some (File (Bytes "")) ∧
  sys_events (trace r.2) = [SysOpenW ["a.pdf"]].
Proof.
  cbv zeta. repeat split; try reflexivity.
  intros Heq.
  apply (f_equal (λ m : gmap path node, m !! ["a.pdf"])) in Heq.
  vm_compute in Heq. discriminate.
Qed.


(** *** Rotate *)

Lemma rotate_loop_run angle ps : ∀ writer w,
  angle `mod` 90 = 0 →
  foldM (λ writer pg,
           let* rotated_page := lift (PyPDF2.rotate pg angle) in
           ret (PyPDF2.add_page writer rotated_page)) writer ps w
  = (Return (writer ++ (rotated angle <$> ps)), w).
Proof.
  intros writer w Ha. revert writer.
  induction ps as [|pg ps IH]; intros writer; simpl.
  - by rewrite app_nil_r.
  - unfold bind at 1. unfold bind at 1. unfold lift, PyPDF2.rotate.
    rewrite decide_False by (intros H; by apply H).
    unfold ret at 1. rewrite IH. unfold PyPDF2.add_page, rotated.
    by rewrite <-app_assoc.
Qed.

Lemma rotate_pdf_run w input_file ps angle output_file :
  loads (fs w) input_file ps →
  writable (fs w) output_file →
  angle `mod` 90 = 0 →
  ∃ t, PDFTool.rotate_pdf input_file angle output_file w
       = (Return true,
          World (<[output_file := File (Pdf (rotated angle <$> ps))]> (fs w)) t).
Proof.
  intros Hin Hout Ha. unfold loads in Hin.
  unfold PDFTool.rotate_pdf, try_except.
  unfold bind at 1. unfold os.exists_ at 1. rewrite Hin. simpl.
  rewrite decide_False by (intros H; by apply H).
  unfold bind at 1. unfold os.open_rb at 1. rewrite Hin.
  unfold bind at 1. unfold PyPDF2.PdfReader at 1, ret at 1.
  unfold bind at 1. unfold logger.info at 1, emit at 1.
  unfold bind at 1. rewrite rotate_loop_run by done.
  rewrite write_file_run by done.
  unfold bind, logger.info, emit, ret. simpl. eauto.
Qed.

Lemma mod_90_quarter_turn angle :
  angle `mod` 90 = 0 → angle `mod` 360 ∈ [0; 90; 180; 270].
Proof.
  intros Ha.
  assert (angle `mod` 360 = 0 ∨ angle `mod` 360 = 90 ∨
          angle `mod` 360 = 180 ∨ angle `mod` 360 = 270) as [-> | [-> | [-> | ->]]]
    by (Z.div_mod_to_equations; lia);
    set_solver.
Qed.

(** C3, as the code has it.  With a readable input and a writable output
    other than the input, [rotate_pdf] fails on the angle, with the message about multiples of 90
    and without touching the file system, exactly when the angle is not a
    multiple of 90.  A multiple of 90 is accepted and added as it is to every
    page's /Rotate: the stored value is not reduced into {0, 90, 180, 270},
    it is only congruent modulo 360 to the old value plus the reduced
    angle. *)
Theorem rotate_pdf_angle_policy w input_file ps angle output_file :
  loads (fs w) input_file ps →
  writable (fs w) output_file →
  output_file ≠ input_file →
  let r := PDFTool.rotate_pdf input_file angle output_file w in
  (r.1 = Return false ↔ angle `mod` 90 ≠ 0) ∧
  (angle `mod` 90 ≠ 0 →
     r = (Return false,
          World (fs w)
            (trace w ++ [Log ERROR "Angle must be a multiple of 90 degrees"]))) ∧
  (angle `mod` 90 = 0 →
     r.1 = Return true ∧
     fs r.2 = <[output_file := File (Pdf (rotated angle <$> ps))]> (fs w) ∧
     angle `mod` 360 ∈ [0; 90; 180; 270] ∧
     ∀ pg, rotation (rotated angle pg) `mod` 360
           = (rotation pg + angle `mod` 360) `mod` 360).
Proof.
  intros Hin Hout _ r.
  assert (angle `mod` 90 ≠ 0 →
    r = (Return false,
         World (fs w)
           (trace w ++ [Log ERROR "Angle must be a multiple of 90 degrees"])))
    as Hbad.
  { intros Ha. unfold r, PDFTool.rotate_pdf. io_unfold. unfold loads in Hin.
    rewrite Hin. simpl. by rewrite decide_True. }
  assert (angle `mod` 90 = 0 →
    r.1 = Return true ∧
    fs r.2 = <[output_file := File (Pdf (rotated angle <$> ps))]> (fs w))
    as Hgood.
  { intros Ha. destruct (rotate_pdf_run w _ _ _ _ Hin Hout Ha) as [t Ht].
    unfold r. by rewrite Ht. }
  split; [|split].
  - split.
    + intros Hr Ha. destruct (Hgood Ha) as [Hr' _]. congruence.
    + intros Ha. by rewrite (Hbad Ha).
  - done.
  - intros Ha. destruct (Hgood Ha) as [-> ->]. repeat split.
    + by apply mod_90_quarter_turn.
    + intros pg. simpl. by rewrite Zplus_mod_idemp_r.
Qed.

(** 450 is accepted and 91 is rejected. *)
Lemma rotate_pdf_angle_policy_witness :
  (PDFTool.rotate_pdf ["doc.pdf"] 450 ["out.pdf"] one_page_world).1 = Return true ∧
  (PDFTool.rotate_pdf ["doc.pdf"] 91 ["out.pdf"] one_page_world).1 = Return false.
Proof.
  assert (loads (fs one_page_world) ["doc.pdf"] [blank_page]) as Hin
    by reflexivity.
  assert (writable (fs one_page_world) ["out.pdf"]) as Hout
    by (split; [reflexivity | vm_compute; discriminate]).
  split.
  - apply (rotate_pdf_angle_policy one_page_world ["doc.pdf"] [blank_page] 450
             ["out.pdf"] Hin Hout); [discriminate | reflexivity].
  - apply (rotate_pdf_angle_policy one_page_world ["doc.pdf"] [blank_page] 91
             ["out.pdf"] Hin Hout); [discriminate | vm_compute; discriminate].
Defined.

(** C3 as worded fails: rotating by 450 stores /Rotate 450, which is outside
    {0, 90, 180, 270} and is not what a rotation by 90 stores. *)
Lemma rotate_450_is_not_normalized :
  let r450 := PDFTool.rotate_pdf ["doc.pdf"] 450 ["out.pdf"] one_page_world in
  let r90 := PDFTool.rotate_pdf ["doc.pdf"] 90 ["out.pdf"] one_page_world in
  r450.1 = Return true ∧
  ¬ (∀ qs pg, loads (fs r450.2) ["out.pdf"] qs → pg ∈ qs →
       rotation pg ∈ [0; 90; 180; 270]) ∧
  fs r450.2 !! ["out.pdf"] ≠ fs r90.2 !! ["out.pdf"].
Proof.
  split; [reflexivity|]. split.
  - intros H.
    specialize (H [rotated 450 blank_page] (rotated 450 blank_page) eq_refl).
    assert (450 ∈ [0; 90; 180; 270]) as Hin.
    { apply H. apply elem_of_cons. by left. }
    repeat (apply elem_of_cons in Hin as [Hin|Hin]; [discriminate Hin|]).
    by apply elem_of_nil in Hin.
  - vm_compute. discriminate.
Qed.

(** C8.  An accepted rotation writes a document with as many pages as the
    input, page [i] of which has the content stream and the MediaBox of page
    [i] of the input, only /Rotate being changed; the input file itself is
    left as it was. *)
Theorem rotate_pdf_frame w input_file ps angle output_file :
  loads (fs w) input_file ps →
  writable (fs w) output_file →
  output_file ≠ input_file →
  angle `mod` 90 = 0 →
  ∃ w' qs,
    PDFTool.rotate_pdf input_file angle output_file w = (Return true, w') ∧
    loads (fs w') output_file qs ∧
    loads (fs w') input_file ps ∧
    length qs = length ps ∧
    ∀ i pg, ps !! i = Some pg →
      ∃ q, qs !! i = Some q ∧
           contents q = contents pg ∧
           mediabox q = mediabox pg ∧
           rotation q = rotation pg + angle.
Proof.
  intros Hin Hout Hne Ha.
  destruct (rotate_pdf_run w _ _ _ _ Hin Hout Ha) as [t Ht].
  pose proof (writable_nonroot _ _ Hout) as Hnr.
  eexists _, (rotated angle <$> ps). split; [exact Ht|]. simpl.
  unfold loads. rewrite !fs_lookup_insert by done.
  rewrite decide_True by done. rewrite decide_False by done.
  repeat split; [done|by rewrite length_fmap|].
  intros i pg Hi. exists (rotated angle pg).
  by rewrite list_lookup_fmap, Hi.
Qed.

(** A quarter turn of the one-page document. *)
Lemma rotate_pdf_frame_witness :
  ∃ w' qs,
    PDFTool.rotate_pdf ["doc.pdf"] 90 ["out.pdf"] one_page_world = (Return true, w') ∧
    loads (fs w') ["out.pdf"] qs ∧ length qs = 1%nat.
Proof.
  destruct (rotate_pdf_frame one_page_world ["doc.pdf"] [blank_page] 90 ["out.pdf"])
    as (w' & qs & Hr & Hq & _ & Hl & _).
  - reflexivity.
  - split; [reflexivity | vm_compute; discriminate].
  - discriminate.
  - reflexivity.
  - by exists w', qs.
Defined.


(** *** Watermark *)

Lemma fs_lookup_delete (m : gmap path node) p q :
  p ≠ [] →
  fs_lookup (delete p m) q = if decide (p = q) then None else fs_lookup m q.
Proof.
  intros Hp. destruct q as [|c q]; simpl.
  - by rewrite decide_False.
  - apply lookup_delete.
Qed.

Lemma canvas_save_run {A} (c : canvas.Canvas) m t (k : io A) :
  writable m (canvas.filename c) →
  canvas.code c ≠ [] →
  bind (canvas.save c) (λ _, k) (World m t)
  = k (World (<[canvas.filename c := File (Pdf (canvas.finished (canvas.showPage c)))]> m)
             (t ++ [SysOpenW (canvas.filename c);
                    SysWrite (canvas.filename c)
                      (Pdf (canvas.finished (canvas.showPage c)))])).
Proof.
  intros Hw Hc. unfold canvas.save.
  destruct (canvas.code c) as [|o code] eqn:Hcode; [done|].
  change (canvas.filename (canvas.showPage c)) with (canvas.filename c).
  rewrite bind_assoc. by apply write_file_run.
Qed.

Lemma watermark_loop_run ov ps : ∀ writer,
  fold_left (λ writer pg, PyPDF2.add_page writer (PyPDF2.merge_page pg ov))
    ps writer
  = writer ++ ((λ pg, PyPDF2.merge_page pg ov) <$> ps).
Proof.
  induction ps as [|pg ps IH]; intros writer; simpl.
  - by rewrite app_nil_r.
  - rewrite IH. unfold PyPDF2.add_page. by rewrite <-app_assoc.
Qed.

Lemma add_watermark_run w input_file ps text output_file :
  loads (fs w) input_file ps →
  writable (fs w) PDFTool.watermark_file →
  writable (fs w) output_file →
  input_file ≠ PDFTool.watermark_file →
  output_file ≠ PDFTool.watermark_file →
  ∃ t, PDFTool.add_watermark input_file text output_file w
       = (Return true,
          World (delete PDFTool.watermark_file
                   (<[output_file :=
                        File (Pdf ((λ pg, PyPDF2.merge_page pg (overlay_page text)) <$> ps))]>
                      (<[PDFTool.watermark_file := File (Pdf [overlay_page text])]> (fs w))))
                t).
Proof.
  intros Hin Hwm Hout Hne1 Hne2. unfold loads in Hin.
  assert (PDFTool.watermark_file ≠ []) as Hwm0 by done.
  set (m1 := <[PDFTool.watermark_file := File (Pdf [overlay_page text])]> (fs w)).
  assert (fs_lookup m1 input_file = Some (File (Pdf ps))) as Hin1.
  { unfold m1. rewrite fs_lookup_insert by done. by rewrite decide_False. }
  assert (fs_lookup m1 PDFTool.watermark_file = Some (File (Pdf [overlay_page text]))) as Hwm1.
  { unfold m1. rewrite fs_lookup_insert by done. by rewrite decide_True. }
  assert (writable m1 output_file) as Hout1.
  { destruct Hout as [Hpar Ho]. destruct Hwm as [_ Hw]. split; unfold m1.
    - rewrite fs_lookup_insert by done. rewrite decide_False; [done|].
      intros Heq. apply Hw. by rewrite Heq.
    - rewrite fs_lookup_insert by done. by rewrite decide_False. }
  unfold PDFTool.add_watermark, try_except.
  unfold bind at 1. unfold os.exists_ at 1. rewrite Hin.
  rewrite bool_decide_eq_true_2 by eauto. cbn [negb].
  destruct w as [m t]. cbn [fs trace] in *.
  rewrite canvas_save_run by done.
  change (canvas.filename (PDFTool.watermark_canvas text))
    with PDFTool.watermark_file.
  change (canvas.finished (canvas.showPage (PDFTool.watermark_canvas text)))
    with [overlay_page text].
  fold m1.
  unfold bind at 1. unfold os.open_rb at 1. simpl fs. rewrite Hin1.
  unfold bind at 1. unfold PyPDF2.PdfReader at 1, ret at 1.
  unfold bind at 1. unfold os.open_rb at 1. simpl fs. rewrite Hwm1.
  unfold bind at 1. unfold PyPDF2.PdfReader at 1, ret at 1.
  unfold bind at 1. unfold lift at 1.
  change (Py.getitem [overlay_page text] 0) with (Return (overlay_page text)).
  cbv iota. rewrite watermark_loop_run. simpl app.
  rewrite write_file_run by done.
  unfold bind at 1. unfold os.remove at 1. cbn [fs trace].
  rewrite fs_lookup_insert by (by apply writable_nonroot in Hout1).
  rewrite decide_False by done. rewrite Hwm1.
  io_unfold. cbn [fs trace]. eauto.
Qed.

Lemma merge_page_keeps_stream pg ov :
  ∃ pre post,
    contents (PyPDF2.merge_page pg ov) = pre ++ contents pg ++ post.
Proof.
  exists [GSave],
    (GRestore :: PyPDF2.push_pop_gs
       (RawOp "re" :: RawOp "W" :: RawOp "n" :: contents ov)).
  simpl. by rewrite <-app_assoc.
Qed.

(** C7.  On a readable input, [add_watermark] writes a document with as many
    pages as the input; page [i] of the output is page [i] of the input with
    the overlay merged in: the original operators are all still there, in
    order, the stream is at least as long as it was, and the MediaBox and
    /Rotate are those of the input page.  The input and the output are files
    other than the temporary overlay, and the output is not the input (the
    reader is modelled as reading the whole input when it is opened). *)
Theorem add_watermark_preserves_pages w input_file ps text output_file :
  loads (fs w) input_file ps →
  writable (fs w) PDFTool.watermark_file →
  writable (fs w) output_file →
  input_file ≠ PDFTool.watermark_file →
  output_file ≠ PDFTool.watermark_file →
  output_file ≠ input_file →
  ∃ w' qs,
    PDFTool.add_watermark input_file text output_file w = (Return true, w') ∧
    loads (fs w') output_file qs ∧
    loads (fs w') input_file ps ∧
    length qs = length ps ∧
    ∀ i pg, ps !! i = Some pg →
      ∃ q, qs !! i = Some q ∧
           (∃ pre post, contents q = pre ++ contents pg ++ post) ∧
           (length (contents pg) ≤ length (contents q))%nat ∧
           mediabox q = mediabox pg ∧
           rotation q = rotation pg.
Proof.
  intros Hin Hwm Hout Hne1 Hne2 Hne3.
  destruct (add_watermark_run w _ _ text _ Hin Hwm Hout Hne1 Hne2) as [t Ht].
  pose proof (writable_nonroot _ _ Hout) as Hnr.
  eexists _, _. split; [exact Ht|]. cbn [fs]. split; [|split; [|split]].
  - unfold loads. rewrite fs_lookup_delete by done.
    rewrite decide_False by done.
    rewrite fs_lookup_insert by done.
    by rewrite decide_True.
  - unfold loads. rewrite fs_lookup_delete by done.
    rewrite decide_False by done.
    rewrite !fs_lookup_insert by done.
    by rewrite !decide_False by done.
  - by rewrite length_fmap.
  - intros i pg Hi. exists (PyPDF2.merge_page pg (overlay_page text)).
    rewrite list_lookup_fmap, Hi. split; [done|].
    destruct (merge_page_keeps_stream pg (overlay_page text)) as (pre & post & He).
    split; [by exists pre, post|]. split; [|done].
    rewrite He, !length_app. lia.
Qed.

(** Stamping the one-page document. *)
Lemma add_watermark_preserves_pages_witness :
  ∃ w' qs,
    PDFTool.add_watermark ["doc.pdf"] "DRAFT" ["out.pdf"] one_page_world
    = (Return true, w') ∧
    loads (fs w') ["out.pdf"] qs ∧ length qs = 1%nat.
Proof.
  destruct (add_watermark_preserves_pages one_page_world ["doc.pdf"] [blank_page]
              "DRAFT" ["out.pdf"]) as (w' & qs & Hr & Hq & _ & Hl & _).
  - reflexivity.
  - apply writable_check. vm_compute. reflexivity.
  - apply writable_check. vm_compute. reflexivity.
  - discriminate.
  - discriminate.
  - discriminate.
  - by exists w', qs.
Defined.

(** *** Watermark: the temporary overlay *)

(** Whenever the input exists but does not parse, the overlay written at the
    start is what [add_watermark] leaves behind. *)
Lemma add_watermark_unreadable_input w input_file raw text output_file :
  fs_lookup (fs w) input_file = Some (File (Bytes raw)) →
  writable (fs w) PDFTool.watermark_file →
  input_file ≠ PDFTool.watermark_file →
  ∃ t, PDFTool.add_watermark input_file text output_file w
       = (Return false,
          World (<[PDFTool.watermark_file := File (Pdf [overlay_page text])]> (fs w)) t).
Proof.
  intros Hin Hwm Hne. destruct w as [m t]. cbn [fs trace] in *.
  unfold PDFTool.add_watermark, try_except.
  unfold bind at 1. unfold os.exists_ at 1. cbn [fs]. rewrite Hin.
  rewrite bool_decide_eq_true_2 by eauto. cbn [negb].
  rewrite canvas_save_run by done.
  change (canvas.filename (PDFTool.watermark_canvas text))
    with PDFTool.watermark_file.
  change (canvas.finished (canvas.showPage (PDFTool.watermark_canvas text)))
    with [overlay_page text].
  unfold bind at 1. unfold os.open_rb at 1. cbn [fs].
  rewrite fs_lookup_insert by done. rewrite decide_False by done. rewrite Hin.
  unfold bind, PyPDF2.PdfReader, raise, logger.error, emit, ret. cbn [fs trace].
  eauto.
Qed.

(** C2 (the code departs from it).  When the input exists but cannot be
    parsed, [add_watermark] returns [False] and the overlay file it created
    is still there: the [os.remove] is only reached on the success path. *)
Theorem add_watermark_error_leaves_overlay :
  let r := PDFTool.add_watermark ["broken.pdf"] "DRAFT" ["out.pdf"] broken_world in
  r.1 = Return false ∧
  fs broken_world !! PDFTool.watermark_file = None ∧
  is_Some (fs r.2 !! PDFTool.watermark_file) ∧
  SysRemove PDFTool.watermark_file ∉ trace r.2.
Proof.
  vm_compute. repeat split; [eauto|].
  intros H. repeat (apply elem_of_cons in H as [H|H]; [discriminate H|]).
  by apply elem_of_nil in H.
Qed.

(** *** Creating the output directory *)

Lemma fs_lookup_snoc (m : gmap path node) p x : fs_lookup m (p ++ [x]) = m !! (p ++ [x]).
Proof. by destruct p. Qed.

Lemma prefix_snoc_inv (q p : path) x :
  q `prefix_of` p ++ [x] → q = p ++ [x] ∨ q `prefix_of` p.
Proof.
  intros [r Hr]. destruct r as [|y r _] using rev_ind.
  - left. by rewrite app_nil_r in Hr.
  - right. rewrite app_assoc in Hr. apply app_inj_tail in Hr as [-> _].
    by apply prefix_app_r.
Qed.

Lemma no_file_prefix_parent m p x :
  no_file_prefix m (p ++ [x]) → no_file_prefix m p.
Proof. intros H q d Hq. apply H. by apply prefix_app_r. Qed.

Lemma wf_fs_insert m p x :
  wf_fs m → m !! p = None → fs_lookup m (parent p) = Some Dir → p ≠ [] →
  wf_fs (<[p := x]> m).
Proof.
  intros Hwf Hnone Hpar Hp q y Hq.
  rewrite fs_lookup_insert by done.
  destruct (decide (p = parent q)) as [Heq|Hne].
  - rewrite decide_True by done.
    exfalso. destruct (decide (p = q)) as [->|Hpq].
    + destruct q as [|c q _] using rev_ind; [done|].
      rewrite parent_snoc in Heq.
      apply (f_equal length) in Heq. rewrite length_app in Heq. simpl in Heq. lia.
    + rewrite lookup_insert_ne in Hq by done.
      apply Hwf in Hq. rewrite <-Heq in Hq.
      destruct p; [done|]. simpl in Hq. congruence.
  - rewrite decide_False by done.
    destruct (decide (p = q)) as [<-|Hpq]; [done|].
    rewrite lookup_insert_ne in Hq by done. by apply Hwf in Hq.
Qed.

Lemma wf_fs_ancestors m : ∀ p q,
  wf_fs m → is_Some (fs_lookup m p) → q `prefix_of` p → q ≠ p →
  fs_lookup m q = Some Dir.
Proof.
  intros p. induction p as [|x p IH] using rev_ind; intros q Hwf Hp Hq Hne.
  - apply prefix_nil_inv in Hq. congruence.
  - apply prefix_snoc_inv in Hq as [->|Hq]; [done|].
    destruct Hp as [y Hy]. rewrite fs_lookup_snoc in Hy.
    apply Hwf in Hy. rewrite parent_snoc in Hy.
    destruct (decide (q = p)) as [->|Hqp]; [done|].
    apply IH; eauto.
Qed.

Lemma mkdir_once fuel p :
  Path.mkdir fuel false p
  = try_except (os.mkdir p) (λ e,
      match e with
      | FileNotFoundError _ => raise e
      | _ => let* d := os.isdir p in if d : bool then ret tt else raise e
      end).
Proof. by destruct fuel. Qed.

Lemma mkdir_go_run : ∀ fuel p m t,
  fuel = length p →
  no_file_prefix m p →
  ∃ m', Path.mkdir fuel true p (World m t) = (Return tt, World m' t) ∧
        mkdir_post m m' p.
Proof.
  induction fuel as [|fuel IH]; intros p m t Hlen Hnf.
  - destruct p; [|done]. exists m. split; [reflexivity|]. by split.
  - destruct p as [|x p _] using rev_ind; [done|].
    assert (∀ m0 : gmap path node,
              no_file_prefix m0 p → no_file_prefix (<[p ++ [x] := Dir]> m0) (p ++ [x]))
      as Hclear.
    { intros m0 H0 q d Hq. rewrite fs_lookup_insert by (by destruct p).
      destruct (decide (p ++ [x] = q)) as [|Hne]; [done|].
      apply prefix_snoc_inv in Hq as [->|Hq]; [done|]. by apply H0. }
    rewrite length_app in Hlen. simpl in Hlen.
    assert (fuel = length p) as Hfuel by lia.
    assert (p ++ [x] ≠ []) as Hnr by (by destruct p).
    pose proof (no_file_prefix_parent _ _ _ Hnf) as Hnf'.
    cbn [Path.mkdir]. unfold try_except at 1. unfold os.mkdir at 1.
    cbn [fs trace]. rewrite parent_snoc.
    rewrite (no_file_prefix_holds m p Hnf'). cbn [negb].
    destruct (fs_lookup m (p ++ [x])) as [[|d]|] eqn:Hp.
    + (* already a directory *)
      unfold bind, os.isdir, ret. cbn [fs trace]. rewrite Hp.
      exists m. split; [done|]. by split.
    + (* a regular file is in the way *)
      by destruct (Hnf (p ++ [x]) d).
    + destruct (fs_lookup m p) as [[|d]|] eqn:Hpar.
      * (* the parent is there *)
        exists (<[p ++ [x] := Dir]> m). split; [done|]. split.
        -- rewrite fs_lookup_insert by done. by rewrite decide_True.
        -- intros q y Hq. rewrite fs_lookup_insert by done.
           rewrite decide_False; [done|]. intros <-. congruence.
        -- intros q Hq. rewrite fs_lookup_insert by done.
           rewrite decide_False; [done|]. by intros <-.
        -- intros Hwf.
           apply wf_fs_insert;
             [done | by rewrite <-fs_lookup_snoc | by rewrite parent_snoc | done].
        -- by apply Hclear.
      * by destruct (Hnf p d); [apply prefix_app_r|].
      * (* the parent is missing: create it, then retry *)
        destruct (IH p m t Hfuel Hnf') as (m1 & Hrun & [Hd Hk Hf Hw Hc]).
        unfold bind at 1. rewrite Hrun. rewrite mkdir_once.
        unfold try_except, os.mkdir. cbn [fs trace]. rewrite parent_snoc.
        rewrite (no_file_prefix_holds m1 p Hc). cbn [negb].
        rewrite (Hf (p ++ [x])) by apply prefix_snoc_not.
        rewrite Hp, Hd.
        exists (<[p ++ [x] := Dir]> m1). split; [done|]. split.
        -- rewrite fs_lookup_insert by done. by rewrite decide_True.
        -- intros q y Hq. rewrite fs_lookup_insert by done.
           rewrite decide_False; [eauto|]. intros <-. congruence.
        -- intros q Hq. rewrite fs_lookup_insert by done.
           rewrite decide_False by (by intros <-).
           apply Hf. intros Hqp. apply Hq. by apply prefix_app_r.
        -- intros Hwf.
           apply wf_fs_insert;
             [by apply Hw | | by rewrite parent_snoc | done].
           rewrite <-fs_lookup_snoc.
           by rewrite (Hf (p ++ [x])) by apply prefix_snoc_not.
        -- by apply Hclear.
Qed.

Lemma mkdir_parents_run p m t :
  no_file_prefix m p →
  ∃ m', mkdir_post m m' p ∧
        ∀ A (k : io A),
          bind (Path.mkdir_parents p) (λ _, k) (World m t)
          = k (World m' (t ++ [SysMkdir p])).
Proof.
  intros Hnf. destruct (mkdir_go_run (length p) p m t eq_refl Hnf) as (m' & Hrun & Hpost).
  exists m'. split; [done|]. intros A k.
  unfold Path.mkdir_parents. rewrite bind_assoc.
  unfold bind at 1. rewrite Hrun. by unfold bind, emit.
Qed.

(** *** Chunk file names do not collide *)

Lemma str_length_app s t :
  String.length (s +:+ t) = (String.length s + String.length t)%nat.
Proof. induction s as [|c s IH]; simpl; [done|]. by rewrite IH. Qed.

Lemma str_app_inj_length s1 : ∀ s2 t1 t2,
  String.length s1 = String.length s2 → s1 +:+ t1 = s2 +:+ t2 → s1 = s2.
Proof.
  induction s1 as [|c s1 IH]; intros [|c' s2] t1 t2 Hlen Heq;
    simplify_eq/=; [done|].
  f_equal. eauto.
Qed.

Lemma str_app_inv_tail s1 s2 t : s1 +:+ t = s2 +:+ t → s1 = s2.
Proof.
  intros Heq. apply (str_app_inj_length s1 s2 t t); [|done].
  apply (f_equal String.length) in Heq. rewrite !str_length_app in Heq. lia.
Qed.

Lemma str_app_dash_inj s1 : ∀ s2 t1 t2,
  no_dash s1 → no_dash s2 →
  s1 +:+ String "-" t1 = s2 +:+ String "-" t2 → s1 = s2.
Proof.
  induction s1 as [|c s1 IH]; intros [|c' s2] t1 t2 H1 H2 Heq;
    simpl in *; simplify_eq/=.
  - done.
  - by destruct H2.
  - by destruct H1.
  - f_equal. destruct H1, H2. eauto.
Qed.

Lemma pretty_N_go_no_dash x : ∀ s, no_dash s → no_dash (pretty_N_go x s).
Proof.
  induction (N.lt_wf_0 x) as [x _ IH]; intros s Hs.
  assert (x = 0 ∨ 0 < x)%N as [->|Hx] by lia.
  - by rewrite pretty_N_go_0.
  - rewrite pretty_N_go_step by done. apply IH.
    + by apply N.div_lt.
    + split; [|done]. unfold pretty_N_char. by repeat case_match.
Qed.

Lemma str_no_dash z : 0 < z → no_dash (Py.str z).
Proof.
  intros Hz. destruct z as [|p|p]; [lia| |lia].
  unfold Py.str, pretty, pretty_Z, pretty, pretty_positive, pretty, pretty_N.
  rewrite decide_False by done. by apply pretty_N_go_no_dash.
Qed.

Lemma output_filename_inj base k i e i' e' :
  0 ≤ i → 0 ≤ i' →
  PDFTool.output_filename base k i e = PDFTool.output_filename base k i' e' →
  i = i'.
Proof.
  intros Hi Hi'. unfold PDFTool.output_filename.
  destruct (decide (k = 1)) as [_|_]; intros Heq.
  - apply (inj (String.app base)), (inj (String.app "_page_")) in Heq.
    apply str_app_inv_tail in Heq. apply (inj pretty) in Heq. lia.
  - apply (inj (String.app base)), (inj (String.app "_pages_")) in Heq.
    apply str_app_dash_inj in Heq; [|apply str_no_dash; lia..].
    apply (inj pretty) in Heq. lia.
Qed.

Lemma rfind_dot_split s : ∀ i,
  Path.rfind_dot s = Some i →
  ∃ r, s = Path.take_str i s +:+ String "." r.
Proof.
  induction s as [|c s IH]; intros i Hi; [done|]. simpl in Hi.
  destruct (Path.rfind_dot s) as [i'|].
  - injection Hi as <-. destruct (IH i' eq_refl) as [r Hr].
    exists r. change (String c s = String c (Path.take_str i' s +:+ String "." r)).
    by f_equal.
  - case_decide; [|done]. injection Hi as <-. subst c. by exists s.
Qed.

Lemma str_app_empty s : s +:+ "" = s.
Proof.
  induction s as [|c s IH]; [done|].
  change (String c (s +:+ "") = String c s). by rewrite IH.
Qed.

(** A name is its stem followed by nothing or by a dotted suffix. *)
Lemma stem_split p :
  ∃ rest, Path.name p = Path.stem p +:+ rest ∧
          (rest = "" ∨ ∃ r, rest = String "." r).
Proof.
  unfold Path.stem. destruct (Path.rfind_dot (Path.name p)) as [i|] eqn:Hi.
  - case_decide.
    + destruct (rfind_dot_split _ _ Hi) as [r Hr]. exists (String "." r). eauto.
    + exists "". rewrite str_app_empty. eauto.
  - exists "". rewrite str_app_empty. eauto.
Qed.

(** No chunk is stored over the input file. *)
Lemma chunk_path_not_input input_file output_dir k n j :
  chunk_path input_file output_dir k n j ≠ input_file.
Proof.
  unfold chunk_path, os.join. intros Heq.
  destruct (stem_split input_file) as (rest & Hname & Hrest).
  pose proof (f_equal Path.name Heq) as Hn.
  unfold Path.name at 1 in Hn. rewrite last_snoc in Hn. cbn [default] in Hn.
  rewrite Hname in Hn. unfold PDFTool.output_filename in Hn.
  case_decide; apply (inj (String.app _)) in Hn;
    destruct Hrest as [->|[r ->]]; discriminate.
Qed.

Lemma chunk_path_inj input_file output_dir k n j j' :
  1 ≤ k →
  chunk_path input_file output_dir k n j = chunk_path input_file output_dir k n j' →
  j = j'.
Proof.
  intros Hk. unfold chunk_path, os.join. intros Heq.
  apply app_inj_tail in Heq as [_ Heq].
  apply output_filename_inj in Heq; nia.
Qed.

(** *** Split *)

Lemma range_starts n k :
  1 ≤ k → 0 ≤ n →
  Py.range 0 n k
  = Return ((λ j : nat, 0 + Z.of_nat j * k) <$> seq 0 (Z.to_nat (ceil_div n k))).
Proof.
  intros Hk Hn. unfold Py.range, ceil_div.
  rewrite decide_False by lia. rewrite decide_True by lia.
  do 3 f_equal. destruct (decide (0 < n)) as [Hpos|Hz].
  - replace (n + k - 1) with (n - 0 - 1 + 1 * k) by lia.
    by rewrite Z.div_add by lia.
  - replace n with 0 by lia. by rewrite Z.div_small by lia.
Qed.

Lemma range_pages i e :
  Py.range i e 1
  = Return ((λ a : nat, i + Z.of_nat a * 1) <$> seq 0 (Z.to_nat (e - i))).
Proof.
  unfold Py.range. rewrite decide_False by lia. rewrite decide_True by lia.
  do 3 f_equal. destruct (decide (i < e)).
  - rewrite Z.div_1_r. lia.
  - lia.
Qed.

Lemma ceil_div_bounds n k :
  1 ≤ k → 0 ≤ n → (ceil_div n k - 1) * k < n ≤ ceil_div n k * k ∨ (n = 0 ∧ ceil_div n k = 0).
Proof.
  intros Hk Hn. unfold ceil_div.
  destruct (decide (n = 0)) as [->|Hne].
  - right. split; [done|]. apply Z.div_small. lia.
  - left.
    assert (k ≠ 0) as Hk0 by lia. assert (0 < k) as Hkpos by lia.
    pose proof (Z.div_mod (n + k - 1) k Hk0) as Hdm.
    pose proof (Z.mod_pos_bound (n + k - 1) k Hkpos) as Hb.
    set (q := (n + k - 1) / k) in *. set (r := (n + k - 1) `mod` k) in *.
    assert ((q - 1) * k = k * q - k) as -> by ring.
    assert (q * k = k * q) as -> by ring.
    lia.
Qed.

Lemma chunk_start_lt (ps : list page) k j :
  1 ≤ k →
  (j < Z.to_nat (ceil_div (Z.of_nat (length ps)) k))%nat →
  (j * Z.to_nat k < length ps)%nat.
Proof.
  intros Hk Hj.
  destruct (ceil_div_bounds (Z.of_nat (length ps)) k Hk) as [[Hlo _]|[_ Hz]]; [lia| |].
  - assert (Z.of_nat j * k < Z.of_nat (length ps)) by nia. nia.
  - rewrite Hz in Hj. simpl in Hj. lia.
Qed.

Lemma getitem_nat {A} (xs : list A) (i : nat) x :
  xs !! i = Some x → Py.getitem xs (Z.of_nat i) = Return x.
Proof.
  intros Hx. pose proof (lookup_lt_Some _ _ _ Hx) as Hlt.
  unfold Py.getitem. rewrite (decide_False (P := Z.of_nat i < 0)) by lia.
  rewrite decide_True by lia. by rewrite Nat2Z.id, Hx.
Qed.

Lemma collect_pages_run (ps : list page) (i : nat) : ∀ len s acc w,
  (i + s + len ≤ length ps)%nat →
  foldM (λ writer page_num,
           let* pg := lift (Py.getitem ps page_num) in
           ret (PyPDF2.add_page writer pg))
        acc ((λ a : nat, Z.of_nat i + Z.of_nat a * 1) <$> seq s len) w
  = (Return (acc ++ take len (drop (i + s) ps)), w).
Proof.
  induction len as [|len IH]; intros s acc w Hlen; simpl.
  - by rewrite app_nil_r.
  - destruct (lookup_lt_is_Some_2 ps (i + s)) as [x Hx]; [lia|].
    unfold bind at 1. unfold bind at 1. unfold lift at 1.
    replace (Z.of_nat i + Z.of_nat s * 1) with (Z.of_nat (i + s)) by lia.
    rewrite (getitem_nat _ _ _ Hx). unfold ret at 1. rewrite IH by lia.
    unfold PyPDF2.add_page. rewrite <-app_assoc.
    rewrite (drop_S _ _ _ Hx). simpl.
    by replace (i + S s)%nat with (S (i + s)) by lia.
Qed.

Section Split.

Variables (input_file output_dir : path) (k : Z) (ps : list page).
Hypothesis Hk : 1 ≤ k.

Let n : Z := Z.of_nat (length ps).
Let cp : nat → path := chunk_path input_file output_dir k n.
Let M : nat := Z.to_nat (ceil_div n k).

Lemma split_chunk_run j m t :
  (j < M)%nat →
  writable m (cp j) →
  PDFTool.split_chunk input_file output_dir k ps (0 + Z.of_nat j * k) (World m t)
  = (Return tt,
     World (store_chunk input_file output_dir k ps m j)
           (t ++ chunk_trace input_file output_dir k ps j)).
Proof.
  intros Hj Hw. pose proof (chunk_start_lt ps k j Hk Hj) as Hlt.
  unfold PDFTool.split_chunk. rewrite Z.add_0_l.
  rewrite range_pages. unfold bind at 1. unfold lift at 1.
  assert (Z.of_nat j * k = Z.of_nat (j * Z.to_nat k)) as -> by lia.
  set (len := Z.to_nat (Z.min (Z.of_nat (j * Z.to_nat k) + k)
                              (Z.of_nat (length ps))
                        - Z.of_nat (j * Z.to_nat k))).
  unfold bind at 1.
  rewrite (collect_pages_run ps (j * Z.to_nat k) len 0) by lia.
  rewrite Nat.add_0_r. unfold PyPDF2.PdfWriter. rewrite app_nil_l.
  assert (take len (drop (j * Z.to_nat k) ps) = chunk k ps j) as ->.
  { unfold chunk.
    replace len with (Z.to_nat k `min` (length ps - j * Z.to_nat k))%nat by lia.
    rewrite <-take_take. f_equal. apply take_ge. rewrite length_drop. lia. }
  assert (os.join output_dir
            (PDFTool.output_filename (Path.stem input_file) k
               (Z.of_nat (j * Z.to_nat k))
               (Z.min (Z.of_nat (j * Z.to_nat k) + k) (Z.of_nat (length ps))))
          = cp j) as Hcp.
  { unfold cp, chunk_path, n. do 3 f_equal; lia. }
  rewrite Hcp. rewrite write_file_run by done.
  unfold logger.info, emit, store_chunk, chunk_trace. cbn [fs trace].
  fold n. fold cp. rewrite <-app_assoc. do 6 f_equal.
  rewrite <-Hcp. unfold os.join. by rewrite last_snoc.
Qed.

Lemma cp_not_output_dir j : cp j ≠ output_dir.
Proof.
  unfold cp, chunk_path, os.join. intros Heq.
  apply (f_equal length) in Heq. rewrite length_app in Heq. simpl in Heq. lia.
Qed.

Lemma cp_parent j : parent (cp j) = output_dir.
Proof. unfold cp, chunk_path, os.join. apply parent_snoc. Qed.

Lemma cp_nonroot j : cp j ≠ [].
Proof. unfold cp, chunk_path, os.join. by destruct output_dir. Qed.

Lemma split_loop_run : ∀ len s m t,
  (s + len ≤ M)%nat →
  fs_lookup m output_dir = Some Dir →
  (∀ j, (j < M)%nat → fs_lookup m (cp j) ≠ Some Dir) →
  for_each ((λ j : nat, 0 + Z.of_nat j * k) <$> seq s len)
    (PDFTool.split_chunk input_file output_dir k ps) (World m t)
  = (Return tt,
     World (foldl (store_chunk input_file output_dir k ps) m (seq s len))
           (t ++ mjoin (chunk_trace input_file output_dir k ps <$> seq s len))).
Proof.
  unfold for_each.
  induction len as [|len IH]; intros s m t Hs Hdir Hfree; simpl.
  - by rewrite app_nil_r.
  - unfold bind at 1. rewrite split_chunk_run; [|lia|].
    2:{ split; [by rewrite cp_parent | apply Hfree; lia]. }
    rewrite IH; [by rewrite <-app_assoc|lia|..].
    + unfold store_chunk. rewrite fs_lookup_insert by apply cp_nonroot.
      rewrite decide_False; [done|]. apply cp_not_output_dir.
    + intros j Hj. unfold store_chunk.
      rewrite fs_lookup_insert by apply cp_nonroot.
      case_decide; [done|by apply Hfree].
Qed.

Lemma store_all_frame l : ∀ m q,
  (∀ j, j ∈ l → cp j ≠ q) →
  fs_lookup (foldl (store_chunk input_file output_dir k ps) m l) q = fs_lookup m q.
Proof.
  induction l as [|a l IH]; intros m q Hq; simpl; [done|].
  rewrite IH by (intros j Hj; apply Hq; by right).
  unfold store_chunk. rewrite fs_lookup_insert by apply cp_nonroot.
  rewrite decide_False; [done|]. apply Hq. by left.
Qed.

Lemma store_all_lookup l : ∀ m j,
  NoDup l → j ∈ l →
  loads (foldl (store_chunk input_file output_dir k ps) m l) (cp j) (chunk k ps j).
Proof.
  unfold loads.
  induction l as [|a l IH]; intros m j Hnd Hj; [by apply elem_of_nil in Hj|].
  apply NoDup_cons in Hnd as [Ha Hnd]. simpl.
  apply elem_of_cons in Hj as [->|Hj]; [|by apply IH].
  rewrite store_all_frame.
  - unfold store_chunk. rewrite fs_lookup_insert by apply cp_nonroot.
    by rewrite decide_True.
  - intros j Hj Heq. apply chunk_path_inj in Heq; [|done]. by subst.
Qed.

Lemma split_pdf_run w :
  loads (fs w) input_file ps →
  no_file_prefix (fs w) output_dir →
  (∀ j, (j < M)%nat → fs_lookup (fs w) (cp j) ≠ Some Dir) →
  ∃ m1,
    mkdir_post (fs w) m1 output_dir ∧
    PDFTool.split_pdf input_file output_dir k w
    = (Return true,
       World (foldl (store_chunk input_file output_dir k ps) m1 (seq 0 M))
             (trace w ++ [SysMkdir output_dir]
              ++ [Log INFO ("Splitting " +:+ path_str input_file +:+ " ("
                            +:+ Py.str n +:+ " pages)")]
              ++ mjoin (chunk_trace input_file output_dir k ps <$> seq 0 M)
              ++ [Log INFO ("Successfully split into " +:+ path_str output_dir)])).
Proof.
  intros Hin Hnf Hfree. unfold loads in Hin. destruct w as [m t].
  cbn [fs trace] in *.
  unfold PDFTool.split_pdf, try_except.
  unfold bind at 1. unfold os.exists_ at 1. cbn [fs]. rewrite Hin.
  rewrite bool_decide_eq_true_2 by eauto. cbn [negb].
  destruct (mkdir_parents_run output_dir m t Hnf) as (m1 & Hpost & ->).
  exists m1. split; [done|]. destruct Hpost as [Hd Hkeep Hframe _].
  unfold bind at 1. unfold os.open_rb at 1. cbn [fs]. rewrite (Hkeep _ _ Hin).
  unfold bind at 1. unfold PyPDF2.PdfReader at 1, ret at 1.
  unfold bind at 1. unfold logger.info at 1, emit at 1. cbn [fs trace].
  rewrite range_starts by lia.
  unfold bind at 1. unfold lift at 1.
  unfold bind at 1. fold n. fold M. rewrite split_loop_run; [|lia|done|].
  - unfold bind, logger.info, emit, ret. cbn [fs trace].
    by rewrite <-!app_assoc.
  - intros j Hj. rewrite Hframe; [by apply Hfree|].
    intros Hpre. apply prefix_length in Hpre.
    unfold cp, chunk_path, os.join in Hpre. rewrite length_app in Hpre.
    simpl in Hpre. lia.
Qed.

End Split.

Lemma written_app t1 t2 : written (t1 ++ t2) = written t1 ++ written t2.
Proof.
  induction t1 as [|e t1 IH]; simpl; [done|].
  destruct e; simpl; by rewrite ?IH.
Qed.

Lemma written_chunks input_file output_dir k ps l :
  written (mjoin (chunk_trace input_file output_dir k ps <$> l))
  = (λ j, (chunk_path input_file output_dir k (Z.of_nat (length ps)) j,
           Pdf (chunk k ps j))) <$> l.
Proof.
  induction l as [|j l IH]; [done|].
  rewrite !fmap_cons, <-IH.
  change (mjoin (?a :: ?b)) with (a ++ mjoin b).
  by rewrite written_app.
Qed.

Lemma sys_events_chunks input_file output_dir k ps l :
  sys_events (mjoin (chunk_trace input_file output_dir k ps <$> l))
  = mjoin ((λ j,
             let p := chunk_path input_file output_dir k (Z.of_nat (length ps)) j in
             [SysOpenW p; SysWrite p (Pdf (chunk k ps j))]) <$> l).
Proof.
  induction l as [|j l IH]; [done|].
  rewrite !fmap_cons.
  change (mjoin (?a :: ?b)) with (a ++ mjoin b).
  by rewrite sys_events_app, IH.
Qed.

Lemma chunk_length k ps j :
  length (chunk k ps j) = (Z.to_nat k `min` (length ps - j * Z.to_nat k))%nat.
Proof. unfold chunk. by rewrite length_take, length_drop. Qed.

Lemma chunk_lookup k ps j a :
  (a < Z.to_nat k)%nat → chunk k ps j !! a = ps !! (j * Z.to_nat k + a)%nat.
Proof. intros Ha. unfold chunk. by rewrite lookup_take_lt, lookup_drop. Qed.

Lemma chunk_full k (ps : list page) j :
  1 ≤ k →
  (S j < Z.to_nat (ceil_div (Z.of_nat (length ps)) k))%nat →
  length (chunk k ps j) = Z.to_nat k.
Proof.
  intros Hk Hj. rewrite chunk_length.
  pose proof (chunk_start_lt ps k (S j) Hk Hj). lia.
Qed.

Lemma chunk_last k (ps : list page) j :
  1 ≤ k →
  S j = Z.to_nat (ceil_div (Z.of_nat (length ps)) k) →
  (1 ≤ length (chunk k ps j) ≤ Z.to_nat k)%nat.
Proof.
  intros Hk Hj. rewrite chunk_length.
  assert (j < Z.to_nat (ceil_div (Z.of_nat (length ps)) k))%nat as Hlt by lia.
  pose proof (chunk_start_lt ps k j Hk Hlt). lia.
Qed.

(** C5.  On a readable [n]-page input and with [k >= 1] pages per file,
    [split_pdf] succeeds and writes exactly [count = ceil(n/k)] documents
    (the least [count] with [n <= count * k]), in order and under pairwise
    different names, none of which is the input: document [j] holds the
    pages [j*k, (j+1)*k) of the input, cut at [n].  Every document has [k]
    pages except possibly the last one, which has between 1 and [k]. *)
Theorem split_pdf_chunks w input_file output_dir k ps :
  let n := Z.of_nat (length ps) in
  let count := Z.to_nat (ceil_div n k) in
  let cp := chunk_path input_file output_dir k n in
  1 ≤ k →
  loads (fs w) input_file ps →
  no_file_prefix (fs w) output_dir →
  (∀ j, (j < count)%nat → fs_lookup (fs w) (cp j) ≠ Some Dir) →
  let r := PDFTool.split_pdf input_file output_dir k w in
  r.1 = Return true ∧
  (Z.of_nat count - 1) * k < n + 1 ≤ Z.of_nat count * k + 1 ∧
  written (trace r.2)
  = written (trace w) ++ ((λ j, (cp j, Pdf (chunk k ps j))) <$> seq 0 count) ∧
  NoDup (cp <$> seq 0 count) ∧
  loads (fs r.2) input_file ps ∧
  (∀ j, (j < count)%nat →
     loads (fs r.2) (cp j) (chunk k ps j) ∧
     (∀ a, (a < Z.to_nat k)%nat →
        chunk k ps j !! a = ps !! (j * Z.to_nat k + a)%nat) ∧
     length (chunk k ps j) = (Z.to_nat k `min` (length ps - j * Z.to_nat k))%nat) ∧
  (∀ j, (S j < count)%nat → length (chunk k ps j) = Z.to_nat k) ∧
  (∀ j, S j = count → (1 ≤ length (chunk k ps j) ≤ Z.to_nat k)%nat).
Proof.
  intros n count cp Hk Hin Hnf Hfree r.
  destruct (split_pdf_run input_file output_dir k ps Hk w Hin Hnf Hfree)
    as (m1 & Hpost & Hrun).
  unfold r. rewrite Hrun. cbn [fst snd fs trace].
  split; [done|]. split; [|split; [|split; [|split; [|split; [|split]]]]].
  - assert (0 ≤ n) as Hn by (unfold n; lia).
    destruct (ceil_div_bounds n k Hk Hn) as [[Hlo Hhi]|[Hz Hc]]; unfold count.
    + assert (0 ≤ ceil_div n k) by nia. rewrite Z2Nat.id by done. lia.
    + rewrite Hc. simpl. lia.
  - rewrite !written_app, written_chunks. simpl. by rewrite app_nil_r.
  - assert (Inj (=) (=) cp) as Hinj
      by (intros j j' Heq; by apply chunk_path_inj in Heq).
    apply (NoDup_fmap_2 cp), NoDup_seq.
  - unfold loads. rewrite store_all_frame.
    + by apply (mkdir_keeps _ _ _ Hpost).
    + intros j _. apply chunk_path_not_input.
  - intros j Hj. split; [|split].
    + apply store_all_lookup; [done|apply NoDup_seq|].
      apply elem_of_seq. unfold count, n in Hj. lia.
    + intros a Ha. by apply chunk_lookup.
    + apply chunk_length.
  - intros j Hj. by apply chunk_full.
  - intros j Hj. by apply chunk_last.
Qed.


(** Five pages, two per file: three documents of 2, 2 and 1 pages. *)
Lemma split_pdf_chunks_witness :
  let r := PDFTool.split_pdf ["report.pdf"] ["out"] 2 report_world in
  r.1 = Return true ∧
  (λ e, match e.2 with Pdf ps => length ps | Bytes _ => O end)
    <$> written (trace r.2) = [2; 2; 1]%nat.
Proof.
  destruct (split_pdf_chunks report_world ["report.pdf"] ["out"] 2 five_pages)
    as (Hr & _ & Hw & _).
  - lia.
  - reflexivity.
  - apply no_file_prefix_check. reflexivity.
  - apply no_dir_at_check. vm_compute. reflexivity.
  - split; [exact Hr|]. rewrite Hw. reflexivity.
Defined.

(** C10.  Whether the output directory is missing (with or without its
    parents) or is already there, [split_pdf] on a readable input succeeds:
    the directory and all its ancestors are directories afterwards, the
    directory is made before the first chunk file is opened, and every chunk
    file is written directly inside it. *)
Theorem split_pdf_creates_output_dir w input_file output_dir k ps :
  let n := Z.of_nat (length ps) in
  let count := Z.to_nat (ceil_div n k) in
  let cp := chunk_path input_file output_dir k n in
  1 ≤ k →
  wf_fs (fs w) →
  loads (fs w) input_file ps →
  no_file_prefix (fs w) output_dir →
  (∀ j, (j < count)%nat → fs_lookup (fs w) (cp j) ≠ Some Dir) →
  let r := PDFTool.split_pdf input_file output_dir k w in
  r.1 = Return true ∧
  (∀ q, q `prefix_of` output_dir → fs_lookup (fs r.2) q = Some Dir) ∧
  sys_events (trace r.2)
  = sys_events (trace w) ++ SysMkdir output_dir
    :: mjoin ((λ j, [SysOpenW (cp j); SysWrite (cp j) (Pdf (chunk k ps j))])
              <$> seq 0 count) ∧
  (∀ j, (j < count)%nat →
     parent (cp j) = output_dir ∧ loads (fs r.2) (cp j) (chunk k ps j)).
Proof.
  intros n count cp Hk Hwf Hin Hnf Hfree r.
  destruct (split_pdf_run input_file output_dir k ps Hk w Hin Hnf Hfree)
    as (m1 & [Hd Hkeep Hframe Hwf1] & Hrun).
  unfold r. rewrite Hrun. cbn [fst snd fs trace].
  split; [done|]. split; [|split].
  - intros q Hq. rewrite store_all_frame.
    + destruct (decide (q = output_dir)) as [->|Hne]; [done|].
      apply (wf_fs_ancestors m1 output_dir); eauto.
    + intros j _ Heq. apply prefix_length in Hq. rewrite <-Heq in Hq.
      unfold chunk_path, os.join in Hq. rewrite length_app in Hq.
      simpl in Hq. lia.
  - rewrite !sys_events_app, sys_events_chunks. simpl.
    by rewrite app_nil_r.
  - intros j Hj. split.
    + unfold cp, chunk_path, os.join. apply parent_snoc.
    + apply store_all_lookup; [done|apply NoDup_seq|].
      apply elem_of_seq. unfold count, n in Hj. lia.
Qed.

(** Neither [out] nor [out/parts] exists beforehand; both are directories
    afterwards. *)
Lemma split_pdf_creates_output_dir_witness :
  let r := PDFTool.split_pdf ["report.pdf"] ["out"; "parts"] 2 report_world in
  fs_lookup (fs report_world) ["out"] = None ∧
  r.1 = Return true ∧
  fs_lookup (fs r.2) ["out"] = Some Dir ∧
  fs_lookup (fs r.2) ["out"; "parts"] = Some Dir.
Proof.
  destruct (split_pdf_creates_output_dir report_world ["report.pdf"]
              ["out"; "parts"] 2 five_pages) as (Hr & Hdirs & _).
  - lia.
  - apply wf_fs_check. vm_compute. reflexivity.
  - reflexivity.
  - apply no_file_prefix_check. reflexivity.
  - apply no_dir_at_check. vm_compute. reflexivity.
  - split; [reflexivity|]. split; [exact Hr|]. split; apply Hdirs.
    + by exists ["parts"].
    + done.
Defined.

(** An output directory that is already there is accepted, and the chunk
    files land in it. *)
Example split_pdf_existing_output_dir :
  let w := World (<[ ["out"] := Dir ]> (fs report_world)) [] in
  let r := PDFTool.split_pdf ["report.pdf"] ["out"] 3 w in
  r.1 = Return true ∧
  fs_lookup (fs r.2) ["out"] = Some Dir ∧
  loads (fs r.2) ["out"; "report_pages_1-3.pdf"] (take 3 five_pages) ∧
  loads (fs r.2) ["out"; "report_pages_4-5.pdf"] (drop 3 five_pages).
Proof. vm_compute. by repeat split. Qed.

(** The input is looked up first: when it is missing nothing is created. *)
Lemma split_pdf_missing_input w input_file output_dir k :
  fs_lookup (fs w) input_file = None →
  PDFTool.split_pdf input_file output_dir k w
  = (Return false,
     World (fs w)
       (trace w ++ [Log ERROR ("Input file not found: " +:+ path_str input_file)])).
Proof.
  intros Hin. unfold PDFTool.split_pdf. io_unfold. cbn [fs trace].
  by rewrite Hin.
Qed.

(** *** Split, then merge *)

Lemma concat_chunks_from k (ps : list page) : ∀ len s,
  concat (chunk k ps <$> seq s len)
  = take (len * Z.to_nat k) (drop (s * Z.to_nat k) ps).
Proof.
  induction len as [|len IH]; intros s; [done|].
  cbn [seq]. rewrite fmap_cons.
  cbn [concat].
  rewrite IH. unfold chunk.
  replace (S s * Z.to_nat k)%nat with (s * Z.to_nat k + Z.to_nat k)%nat by lia.
  rewrite <-drop_drop, take_take_drop. f_equal; lia.
Qed.

Lemma concat_chunks k (ps : list page) :
  1 ≤ k →
  concat (chunk k ps <$> seq 0 (Z.to_nat (ceil_div (Z.of_nat (length ps)) k))) = ps.
Proof.
  intros Hk. rewrite concat_chunks_from. simpl. apply take_ge.
  destruct (ceil_div_bounds (Z.of_nat (length ps)) k Hk) as [[_ Hhi]|[Hz _]];
    [lia|nia|lia].
Qed.

(** C6.  Splitting a readable document into chunks of [k >= 1] pages and
    then merging the chunk files, in the order they were produced, into a
    file that is not one of them, writes a document with exactly the pages
    of the original, in the original order. *)
Theorem merge_split_roundtrip w input_file output_dir k ps merged_file :
  let n := Z.of_nat (length ps) in
  let count := Z.to_nat (ceil_div n k) in
  let cp := chunk_path input_file output_dir k n in
  1 ≤ k →
  loads (fs w) input_file ps →
  no_file_prefix (fs w) output_dir →
  (∀ j, (j < count)%nat → fs_lookup (fs w) (cp j) ≠ Some Dir) →
  let r1 := PDFTool.split_pdf input_file output_dir k w in
  writable (fs r1.2) merged_file →
  (∀ j, (j < count)%nat → merged_file ≠ cp j) →
  let r2 := PDFTool.merge_pdfs (cp <$> seq 0 count) merged_file r1.2 in
  r1.1 = Return true ∧
  r2.1 = Return true ∧
  loads (fs r2.2) merged_file ps.
Proof.
  intros n count cp Hk Hin Hnf Hfree r1 Hout Hne r2.
  destruct (split_pdf_run input_file output_dir k ps Hk w Hin Hnf Hfree)
    as (m1 & _ & Hrun).
  unfold r2, r1 in *. clear r2 r1. rewrite Hrun in *.
  cbn [fst snd fs trace] in *.
  split; [done|].
  set (w1 := World _ _) in *.
  assert (Forall2 (loads (fs w1)) (cp <$> seq 0 count) (chunk k ps <$> seq 0 count))
    as Hall.
  { apply Forall2_fmap_2, Forall_Forall2_diag, Forall_seq. intros j Hj.
    apply store_all_lookup; [done|apply NoDup_seq|]. apply elem_of_seq.
    unfold count, n in Hj. lia. }
  assert (merged_file ∉ cp <$> seq 0 count) as Hnotin.
  { intros (j & -> & Hj%elem_of_seq)%list_elem_of_fmap.
    apply (Hne j); [lia|done]. }
  rewrite (merge_pdfs_run _ _ _ _ Hall Hout Hnotin). cbn [fst snd fs].
  unfold count, n. rewrite concat_chunks by done.
  split; [done|]. unfold loads.
  rewrite fs_lookup_insert by (by apply writable_nonroot in Hout).
  by rewrite decide_True.
Qed.

(** Five pages split two by two and merged again. *)
Lemma merge_split_roundtrip_witness :
  let r1 := PDFTool.split_pdf ["report.pdf"] ["out"] 2 report_world in
  let parts := chunk_path ["report.pdf"] ["out"] 2 5 <$> [0; 1; 2]%nat in
  let r2 := PDFTool.merge_pdfs parts ["merged.pdf"] r1.2 in
  r2.1 = Return true ∧ loads (fs r2.2) ["merged.pdf"] five_pages.
Proof.
  destruct (merge_split_roundtrip report_world ["report.pdf"] ["out"] 2
              five_pages ["merged.pdf"]) as (_ & Hr & Hl).
  - lia.
  - reflexivity.
  - apply no_file_prefix_check. reflexivity.
  - apply no_dir_at_check. vm_compute. reflexivity.
  - apply writable_check. vm_compute. reflexivity.
  - intros j _. unfold chunk_path, os.join. discriminate.
  - split; [exact Hr | exact Hl].
Defined.

(** *** CreateSample *)

Lemma page_labels_app c1 c2 :
  page_labels (c1 ++ c2) = page_labels c1 ++ page_labels c2.
Proof.
  induction c1 as [|o c1 IH]; [done|].
  destruct o; simpl; rewrite ?IH; try done. by case_decide; rewrite ?IH.
Qed.

Lemma unlabelled_showPage c : unlabelled c → unlabelled (canvas.showPage c).
Proof.
  intros (Hc & Hf & Hn). split; [done|]. split; simpl.
  - apply Forall_app. split; [done|]. by constructor.
  - rewrite length_app, Hn. simpl. lia.
Qed.

Lemma unlabelled_body_line c y line :
  unlabelled c → unlabelled (canvas.drawString c 100 y line).
Proof.
  intros (Hc & Hf & Hn). split; [|done]. simpl.
  rewrite page_labels_app, Hc. by destruct line.
Qed.

Lemma draw_lines_unlabelled lines : ∀ c height y,
  unlabelled c →
  unlabelled (PDFTool.draw_lines c height y lines).1 ∧
  canvas.filename (PDFTool.draw_lines c height y lines).1 = canvas.filename c ∧
  canvas.pagesize (PDFTool.draw_lines c height y lines).1 = canvas.pagesize c.
Proof.
  induction lines as [|line lines IH]; intros c height y Hc; [done|].
  cbn [PDFTool.draw_lines]. destruct (decide (y < 50)).
  - destruct (IH (canvas.drawString (canvas.showPage c) 100 (height - 50) line)
                height (height - 50 - 20)) as (H1 & H2 & H3); [|done].
    by apply unlabelled_body_line, unlabelled_showPage.
  - destruct (IH (canvas.drawString c 100 y line) height (y - 20))
      as (H1 & H2 & H3); [|done].
    by apply unlabelled_body_line.
Qed.

Lemma sample_canvas_shape output_file content :
  ∃ c1,
    unlabelled c1 ∧
    canvas.filename c1 = output_file ∧
    PDFTool.sample_canvas output_file content
    = canvas.drawString (canvas.setFont c1 "Helvetica" 10) (612 - 100) 30
        ("Page " +:+ Py.str (canvas.pageNumber c1)).
Proof.
  unfold PDFTool.sample_canvas, letter. cbv beta iota zeta.
  match goal with
  | |- context [PDFTool.draw_lines ?c ?h ?y ?l] =>
      destruct (draw_lines_unlabelled l c h y) as (Hu & Hfile & _);
        [by split; [|split]; [|constructor|]|];
      destruct (PDFTool.draw_lines c h y l) as [c1 y1]
  end.
  exists c1. cbn [fst] in *. split; [done|]. split; [|reflexivity].
  by rewrite Hfile.
Qed.

(** What [create_sample_pdf] writes, for any body: the pages before the last
    one carry no page-number label at all, and the last page carries the one
    label, which is the number of pages. *)
Lemma create_sample_pdf_labels w output_file content :
  writable (fs w) output_file →
  ∃ t pages last,
    PDFTool.create_sample_pdf output_file content w
    = (Return true,
       World (<[output_file := File (Pdf (pages ++ [last]))]> (fs w)) t) ∧
    Forall (λ pg, page_labels (contents pg) = []) pages ∧
    page_labels (contents last)
    = ["Page " +:+ Py.str (Z.of_nat (length pages) + 1)].
Proof.
  intros Hout. destruct w as [m t]. cbn [fs] in *.
  destruct (sample_canvas_shape output_file content)
    as (c1 & (Hc & Hf & Hn) & Hfile & Hshape).
  unfold PDFTool.create_sample_pdf, try_except. rewrite Hshape.
  rewrite canvas_save_run.
  - unfold bind, logger.info, emit, ret.
    cbn [fs trace canvas.finished canvas.showPage canvas.drawString
         canvas.setFont canvas.emit_op canvas.filename canvas.code].
    rewrite Hfile.
    eexists _, (canvas.finished c1), _. split; [reflexivity|]. split; [done|].
    cbn [contents]. rewrite !page_labels_app, Hc, Hn. by simpl.
  - cbn [canvas.filename canvas.drawString canvas.setFont canvas.emit_op].
    by rewrite Hfile.
  - cbn [canvas.code canvas.drawString canvas.setFont canvas.emit_op].
    intros H. by apply app_eq_nil in H as [_ ?].
Qed.

(** C1 (the code departs from it).  A 31-line body needs two pages; the
    document written by [create_sample_pdf] carries no page-number label on
    its first page, and the only label, on the last page, is the value of the
    running page counter when the method reaches [save]. *)
Theorem create_sample_labels_only_last_page :
  let r := PDFTool.create_sample_pdf ["sample.pdf"] (body_of_lines 31)
             (World ∅ []) in
  r.1 = Return true ∧
  ∃ p1 p2, fs r.2 !! ["sample.pdf"] = Some (File (Pdf [p1; p2])) ∧
    page_labels (contents p1) = [] ∧
    page_labels (contents p2) = ["Page 2"].
Proof.
  vm_compute. split; [reflexivity|]. eexists _, _. repeat split.
Qed.

(** ** Further properties of the code *)

(** *** Merge: what a successful run writes, and where a failing run stops *)

(** X1.  When every source loads and the output can be written and is none
    of the sources, [merge_pdfs] returns [True] and the output holds the
    pages of the sources, source after source in the order given; nothing
    else in the file system changes and the output is the only file opened
    for writing. *)
Theorem merge_pdfs_concat w input_files docs output_file :
  Forall2 (loads (fs w)) input_files docs →
  writable (fs w) output_file →
  output_file ∉ input_files →
  let r := PDFTool.merge_pdfs input_files output_file w in
  r.1 = Return true ∧
  fs r.2 = <[output_file := File (Pdf (concat docs))]> (fs w) ∧
  sys_events (trace r.2)
  = sys_events (trace w)
    ++ [SysOpenW output_file; SysWrite output_file (Pdf (concat docs))].
Proof.
  intros Hall Hout Hnotin r. unfold r.
  rewrite (merge_pdfs_run _ _ _ _ Hall Hout Hnotin).
  cbn [fst snd fs trace]. split; [done|]. split; [done|].
  by rewrite !sys_events_app, sys_events_adding.
Qed.

(** Merging [a.pdf] (two pages) and [b.pdf] (one page). *)
Lemma merge_pdfs_concat_witness :
  loads (fs (PDFTool.merge_pdfs [["a.pdf"]; ["b.pdf"]] ["ab.pdf"] two_docs_world).2)
    ["ab.pdf"] (numbered_page <$> [1; 2; 3]).
Proof.
  destruct (merge_pdfs_concat two_docs_world [["a.pdf"]; ["b.pdf"]]
              [numbered_page <$> [1; 2]; numbered_page <$> [3]] ["ab.pdf"])
    as (_ & Hfs & _).
  - repeat constructor.
  - apply writable_check. vm_compute. reflexivity.
  - intros H. repeat (apply elem_of_cons in H as [H|H]; [discriminate H|]).
    by apply elem_of_nil in H.
  - unfold loads. rewrite Hfs. reflexivity.
Defined.

Lemma merge_loop_missing pre : ∀ docs merger w f post,
  Forall2 (loads (fs w)) pre docs →
  fs_lookup (fs w) f = None →
  PDFTool.merge_loop merger (pre ++ f :: post) w
  = (Return (Returned false),
     World (fs w)
       (trace w ++ (adding_line <$> pre)
        ++ [Log ERROR ("File not found: " +:+ path_str f)])).
Proof.
  induction pre as [|g pre IH]; intros docs merger w f post Hall Hf.
  - simpl. io_unfold. simpl. by rewrite Hf.
  - apply Forall2_cons_inv_l in Hall as (ps & docs' & Hg & Hall & ->).
    simpl. unfold PyPDF2.append. io_unfold. simpl.
    unfold loads in Hg. repeat (rewrite Hg; simpl).
    change (Log INFO ("Adding " +:+ path_str g +:+ " to merge"))
      with (adding_line g).
    rewrite (IH docs' (merger ++ [(g, ps)])
               (World (fs w) (trace w ++ [adding_line g])) f post Hall Hf).
    simpl. by rewrite <-!app_assoc.
Qed.

(** X2.  [merge_pdfs] stops at the first missing source: the sources before
    it are appended, one error line names the missing file, and whatever
    follows it in the list is never looked at (the result does not depend on
    it); the file system is left as it was. *)
Theorem merge_pdfs_stops_at_missing w pre docs f post output_file :
  Forall2 (loads (fs w)) pre docs →
  fs_lookup (fs w) f = None →
  PDFTool.merge_pdfs (pre ++ f :: post) output_file w
  = (Return false,
     World (fs w)
       (trace w ++ (adding_line <$> pre)
        ++ [Log ERROR ("File not found: " +:+ path_str f)])).
Proof.
  intros Hall Hf. unfold PDFTool.merge_pdfs, try_except.
  unfold bind at 1. by rewrite (merge_loop_missing _ _ _ _ _ _ Hall Hf).
Qed.

(** [a.pdf] is appended, [missing.pdf] stops the run, [b.pdf] is not reached. *)
Lemma merge_pdfs_stops_at_missing_witness :
  trace (PDFTool.merge_pdfs [["a.pdf"]; ["missing.pdf"]; ["b.pdf"]] ["ab.pdf"]
           two_docs_world).2
  = [adding_line ["a.pdf"]; Log ERROR "File not found: missing.pdf"].
Proof.
  refine (f_equal (λ r : outcome bool * world, trace r.2)
            (merge_pdfs_stops_at_missing two_docs_world [["a.pdf"]]
               [numbered_page <$> [1; 2]] ["missing.pdf"] [["b.pdf"]]
               ["ab.pdf"] _ _)).
  - repeat constructor.
  - reflexivity.
Defined.

(** X3.  Merging is associative on page sequences: merging [a] and [b] into a
    temporary file and then that file with [c] writes the same document as
    merging [a], [b] and [c] at once. *)
Theorem merge_pdfs_assoc w a b c pa pb pc tmp out :
  loads (fs w) a pa → loads (fs w) b pb → loads (fs w) c pc →
  writable (fs w) tmp → writable (fs w) out →
  tmp ≠ a → tmp ≠ b → tmp ≠ c → out ≠ tmp →
  out ≠ a → out ≠ b → out ≠ c →
  let r1 := PDFTool.merge_pdfs [a; b] tmp w in
  let r2 := PDFTool.merge_pdfs [tmp; c] out r1.2 in
  let r3 := PDFTool.merge_pdfs [a; b; c] out w in
  r2.1 = Return true ∧ r3.1 = Return true ∧
  loads (fs r2.2) out (pa ++ pb ++ pc) ∧
  loads (fs r3.2) out (pa ++ pb ++ pc).
Proof.
  intros Ha Hb Hc Htmp Hout Hta Htb Htc Hot Hoa Hob Hoc r1 r2 r3.
  pose proof (writable_nonroot _ _ Htmp) as Htmp0.
  pose proof (writable_nonroot _ _ Hout) as Hout0.
  assert (Forall2 (loads (fs w)) [a; b] [pa; pb]) as H1 by (by repeat constructor).
  assert (Forall2 (loads (fs w)) [a; b; c] [pa; pb; pc]) as H3
    by (by repeat constructor).
  unfold r2, r1, r3. clear r1 r2 r3.
  rewrite (merge_pdfs_run _ _ _ _ H1 Htmp), (merge_pdfs_run _ _ _ _ H3 Hout);
    [|not_in_list..].
  cbn [fst snd fs concat]. rewrite !app_nil_r.
  set (w1 := World _ _).
  assert (Forall2 (loads (fs w1)) [tmp; c] [pa ++ pb; pc]) as H2.
  { repeat constructor; unfold loads, w1; cbn [fs];
      rewrite fs_lookup_insert by done.
    - by rewrite decide_True.
    - by rewrite decide_False. }
  assert (writable (fs w1) out) as Hout1.
  { destruct Hout as [Hpar Ho]. destruct Htmp as [_ Ht].
    split; unfold w1; cbn [fs]; rewrite fs_lookup_insert by done.
    - rewrite decide_False; [done|]. intros Heq. apply Ht. by rewrite Heq.
    - by rewrite decide_False. }
  rewrite (merge_pdfs_run _ _ _ _ H2 Hout1) by not_in_list.
  cbn [fst snd fs concat].
  rewrite app_nil_r, <-app_assoc. unfold loads.
  rewrite !fs_lookup_insert by done. by rewrite !decide_True.
Qed.

(** [a.pdf] and [b.pdf] merged with a copy of [a.pdf]'s name as third source. *)
Lemma merge_pdfs_assoc_witness :
  let r1 := PDFTool.merge_pdfs [["a.pdf"]; ["b.pdf"]] ["t.pdf"] two_docs_world in
  loads (fs (PDFTool.merge_pdfs [["t.pdf"]; ["b.pdf"]] ["o.pdf"] r1.2).2)
    ["o.pdf"] (numbered_page <$> [1; 2; 3; 3]).
Proof.
  destruct (merge_pdfs_assoc two_docs_world ["a.pdf"] ["b.pdf"] ["b.pdf"]
              (numbered_page <$> [1; 2]) (numbered_page <$> [3])
              (numbered_page <$> [3]) ["t.pdf"] ["o.pdf"])
    as (_ & _ & H & _).
  - reflexivity.
  - reflexivity.
  - reflexivity.
  - apply writable_check. vm_compute. reflexivity.
  - apply writable_check. vm_compute. reflexivity.
  - discriminate.
  - discriminate.
  - discriminate.
  - discriminate.
  - discriminate.
  - discriminate.
  - discriminate.
  - exact H.
Defined.

(** *** Split: pages-per-file that is not positive, unreadable input, frame *)

Lemma range_nonpositive_step n k :
  0 ≤ n → k < 0 → Py.range 0 n k = Return [].
Proof.
  intros Hn Hk. unfold Py.range.
  rewrite decide_False by lia. rewrite (decide_False (P := 0 < k)) by lia.
  by rewrite decide_False by lia.
Qed.

(** X4.  With a readable input and [pages_per_file <= 0] nothing is split,
    yet the output directory is made: for 0 the [range] call raises and the
    method returns [False]; for a negative value the loop is empty and the
    method returns [True] without having written any file. *)
Theorem split_pdf_nonpositive w input_file output_dir k ps :
  k ≤ 0 →
  loads (fs w) input_file ps →
  no_file_prefix (fs w) output_dir →
  let r := PDFTool.split_pdf input_file output_dir k w in
  r.1 = Return (bool_decide (k < 0)) ∧
  fs_lookup (fs r.2) output_dir = Some Dir ∧
  sys_events (trace r.2) = sys_events (trace w) ++ [SysMkdir output_dir].
Proof.
  intros Hk Hin Hnf r. unfold loads in Hin. destruct w as [m t].
  cbn [fs trace] in *.
  destruct (mkdir_parents_run output_dir m t Hnf) as (m1 & [Hd Hkeep _ _] & Hrun).
  assert (∃ t', r = (Return (bool_decide (k < 0)), World m1 t') ∧
                sys_events t' = sys_events t ++ [SysMkdir output_dir])
    as (t' & -> & Ht'); [|done].
  unfold r, PDFTool.split_pdf, try_except.
  unfold bind at 1. unfold os.exists_ at 1. cbn [fs]. rewrite Hin.
  rewrite bool_decide_eq_true_2 by eauto. cbn [negb]. rewrite Hrun.
  unfold bind at 1. unfold os.open_rb at 1. cbn [fs]. rewrite (Hkeep _ _ Hin).
  unfold bind at 1. unfold PyPDF2.PdfReader at 1, ret at 1.
  unfold bind at 1. unfold logger.info at 1, emit at 1. cbn [fs trace].
  destruct (decide (k = 0)) as [->|Hne].
  - unfold bind, lift, Py.range, logger.error, emit, ret. simpl.
    eexists. split; [reflexivity|].
    by rewrite !sys_events_log, sys_events_app.
  - rewrite range_nonpositive_step by lia.
    unfold bind, lift, for_each, logger.info, emit, ret. simpl.
    rewrite bool_decide_eq_true_2 by lia.
    eexists. split; [reflexivity|].
    by rewrite !sys_events_log, sys_events_app.
Qed.

(** The five-page report with 0 and with -1 pages per file. *)
Lemma split_pdf_nonpositive_witness :
  (PDFTool.split_pdf ["report.pdf"] ["out"] 0 report_world).1 = Return false ∧
  (PDFTool.split_pdf ["report.pdf"] ["out"] (-1) report_world).1 = Return true.
Proof.
  split.
  - apply (split_pdf_nonpositive report_world ["report.pdf"] ["out"] 0 five_pages).
    + lia.
    + reflexivity.
    + apply no_file_prefix_check. reflexivity.
  - apply (split_pdf_nonpositive report_world ["report.pdf"] ["out"] (-1) five_pages).
    + lia.
    + reflexivity.
    + apply no_file_prefix_check. reflexivity.
Defined.

(** X5.  The output directory is made before the input is opened: when the
    input exists but is a directory or does not parse as a PDF, [split_pdf]
    returns [False] and the output directory is there all the same, with no
    file written. *)
Theorem split_pdf_unreadable_input w input_file output_dir k x :
  fs_lookup (fs w) input_file = Some x →
  (∀ ps, x ≠ File (Pdf ps)) →
  no_file_prefix (fs w) output_dir →
  let r := PDFTool.split_pdf input_file output_dir k w in
  r.1 = Return false ∧
  fs_lookup (fs r.2) output_dir = Some Dir ∧
  sys_events (trace r.2) = sys_events (trace w) ++ [SysMkdir output_dir].
Proof.
  intros Hin Hx Hnf r. destruct w as [m t]. cbn [fs trace] in *.
  destruct (mkdir_parents_run output_dir m t Hnf) as (m1 & [Hd Hkeep _ _] & Hrun).
  assert (∃ t', r = (Return false, World m1 t') ∧
                sys_events t' = sys_events t ++ [SysMkdir output_dir])
    as (t' & -> & Ht'); [|done].
  unfold r, PDFTool.split_pdf, try_except.
  unfold bind at 1. unfold os.exists_ at 1. cbn [fs]. rewrite Hin.
  rewrite bool_decide_eq_true_2 by eauto. cbn [negb]. rewrite Hrun.
  unfold bind at 1. unfold os.open_rb at 1. cbn [fs]. rewrite (Hkeep _ _ Hin).
  destruct x as [|[raw|ps]]; [| |by destruct (Hx ps)].
  - unfold bind, logger.error, emit, ret. simpl.
    eexists. split; [reflexivity|]. by rewrite sys_events_log, sys_events_app.
  - unfold bind, PyPDF2.PdfReader, raise, logger.error, emit, ret. simpl.
    eexists. split; [reflexivity|]. by rewrite sys_events_log, sys_events_app.
Qed.

(** A file that is not a PDF, split into a directory that did not exist. *)
Lemma split_pdf_unreadable_input_witness :
  let r := PDFTool.split_pdf ["broken.pdf"] ["out"] 1 broken_world in
  r.1 = Return false ∧ fs_lookup (fs r.2) ["out"] = Some Dir.
Proof.
  destruct (split_pdf_unreadable_input broken_world ["broken.pdf"] ["out"] 1
              (File (Bytes "not a pdf"))) as (Hr & Hd & _).
  - reflexivity.
  - discriminate.
  - apply no_file_prefix_check. reflexivity.
  - by split.
Defined.

(** X6.  A successful [split_pdf] touches nothing but the output directory
    path and the chunk files: every other path, the input included, holds
    afterwards what it held before. *)
Theorem split_pdf_frame w input_file output_dir k ps q :
  let n := Z.of_nat (length ps) in
  let count := Z.to_nat (ceil_div n k) in
  let cp := chunk_path input_file output_dir k n in
  1 ≤ k →
  loads (fs w) input_file ps →
  no_file_prefix (fs w) output_dir →
  (∀ j, (j < count)%nat → fs_lookup (fs w) (cp j) ≠ Some Dir) →
  ¬ q `prefix_of` output_dir →
  (∀ j, (j < count)%nat → q ≠ cp j) →
  let r := PDFTool.split_pdf input_file output_dir k w in
  r.1 = Return true ∧ fs_lookup (fs r.2) q = fs_lookup (fs w) q.
Proof.
  intros n count cp Hk Hin Hnf Hfree Hq Hqc r.
  destruct (split_pdf_run input_file output_dir k ps Hk w Hin Hnf Hfree)
    as (m1 & [_ _ Hframe _] & Hrun).
  unfold r. rewrite Hrun. cbn [fst snd fs]. split; [done|].
  rewrite store_all_frame; [by apply Hframe|].
  intros j Hj Heq. apply elem_of_seq in Hj. apply (Hqc j); [|done].
  unfold count, n. lia.
Qed.

(** The report itself is untouched by a split into [out]. *)
Lemma split_pdf_frame_witness :
  fs_lookup (fs (PDFTool.split_pdf ["report.pdf"] ["out"] 2 report_world).2)
    ["report.pdf"]
  = fs_lookup (fs report_world) ["report.pdf"].
Proof.
  apply (split_pdf_frame report_world ["report.pdf"] ["out"] 2 five_pages).
  - lia.
  - reflexivity.
  - apply no_file_prefix_check. reflexivity.
  - apply no_dir_at_check. vm_compute. reflexivity.
  - intros [r Hr]. discriminate Hr.
  - intros j _. unfold chunk_path, os.join. discriminate.
Defined.

(** *** Inputs that are not there, outputs that cannot be written *)

(** X7.  Every method that takes an input file checks for it first: when it
    is missing the method returns [False], logs that one line and leaves the
    file system untouched; in particular [split_pdf] makes no directory and
    [add_watermark] makes no overlay file. *)
Theorem missing_input_is_reported w h input_file :
  fs_lookup (fs w) input_file = None →
  let gone :=
    (Return false,
     World (fs w)
       (trace w ++ [Log ERROR ("Input file not found: " +:+ path_str input_file)])) in
  (∀ output_dir k, PDFTool.split_pdf input_file output_dir k w = gone) ∧
  (∀ output_file, PDFTool.extract_text h input_file output_file w = gone) ∧
  (∀ angle output_file, PDFTool.rotate_pdf input_file angle output_file w = gone) ∧
  (∀ text output_file, PDFTool.add_watermark input_file text output_file w = gone) ∧
  CLI.get_pdf_info h input_file w = gone.
Proof.
  intros Hin gone. unfold gone.
  repeat split; intros;
    unfold PDFTool.split_pdf, PDFTool.extract_text, PDFTool.rotate_pdf,
      PDFTool.add_watermark, CLI.get_pdf_info;
    io_unfold; cbn [fs trace]; by rewrite Hin.
Qed.

(** Rotating a file that is not in [one_page_world]. *)
Lemma missing_input_is_reported_witness :
  (PDFTool.rotate_pdf ["nope.pdf"] 90 ["out.pdf"] one_page_world).1 = Return false.
Proof.
  destruct (missing_input_is_reported one_page_world
              plain_host ["nope.pdf"] eq_refl)
    as (_ & _ & Hrot & _).
  by rewrite Hrot.
Defined.

Lemma open_w_fails m t p :
  ¬ writable m p → ∃ e, os.open_w p (World m t) = (Raise e, World m t).
Proof.
  intros Hnw. unfold os.open_w. cbn [fs trace].
  destruct (fs_lookup m p) as [[|d]|] eqn:Hp; [eauto|..];
    (destruct (fs_lookup m (parent p)) as [[|d']|] eqn:Hpar;
      [|eauto..]); exfalso; apply Hnw; split; congruence.
Qed.

(** X8.  No partial output: when the output cannot be opened for writing
    (its directory is missing or is a file, or the path is a directory),
    [merge_pdfs], [rotate_pdf] and [create_sample_pdf] return [False] and
    leave the file system exactly as it was. *)
Theorem unwritable_output_changes_nothing w output_file :
  ¬ writable (fs w) output_file →
  (∀ input_files docs,
     Forall2 (loads (fs w)) input_files docs →
     let r := PDFTool.merge_pdfs input_files output_file w in
     r.1 = Return false ∧ fs r.2 = fs w) ∧
  (∀ input_file angle,
     let r := PDFTool.rotate_pdf input_file angle output_file w in
     r.1 = Return false ∧ fs r.2 = fs w) ∧
  (∀ content,
     let r := PDFTool.create_sample_pdf output_file content w in
     r.1 = Return false ∧ fs r.2 = fs w).
Proof.
  intros Hnw. split; [|split].
  - intros input_files docs Hall r.
    assert (∃ t, r = (Return false, World (fs w) t)) as [t ->]; [|done].
    unfold r, PDFTool.merge_pdfs, try_except.
    unfold bind at 1. rewrite (merge_loop_trace _ _ _ _ Hall).
    unfold bind at 1.
    destruct (open_w_fails (fs w) (trace w ++ (adding_line <$> input_files))
                output_file Hnw) as [e ->].
    unfold bind, logger.error, emit, ret. cbn [fs trace]. eauto.
  - intros input_file angle r.
    assert (∃ t, r = (Return false, World (fs w) t)) as [t ->]; [|done].
    unfold r, PDFTool.rotate_pdf, try_except.
    unfold bind at 1. unfold os.exists_ at 1.
    destruct (fs_lookup (fs w) input_file) as [x|] eqn:Hin.
    2:{ io_unfold. cbn. eauto. }
    rewrite bool_decide_eq_true_2 by eauto. cbn [negb].
    destruct (decide (angle `mod` 90 ≠ 0)) as [Ha|Ha].
    { io_unfold. cbn. eauto. }
    unfold bind at 1. unfold os.open_rb at 1. rewrite Hin.
    destruct x as [|[raw|ps]].
    + io_unfold. cbn. eauto.
    + unfold bind, PyPDF2.PdfReader, raise, logger.error, emit, ret. cbn. eauto.
    + unfold bind at 1. unfold PyPDF2.PdfReader at 1, ret at 1.
      unfold bind at 1. unfold logger.info at 1, emit at 1.
      unfold bind at 1. rewrite rotate_loop_run by (by apply dec_stable).
      unfold bind at 1.
      destruct (open_w_fails (fs w)
                  (trace w ++ [Log INFO ("Rotating "
                     +:+ Py.str (Z.of_nat (length ps)) +:+ " pages by "
                     +:+ Py.str angle +:+ " degrees")])
                  output_file Hnw) as [e He].
      cbn [fs trace]. rewrite He.
      unfold bind, logger.error, emit, ret. cbn [fs trace]. eauto.
  - intros content r.
    assert (∃ t, r = (Return false, World (fs w) t)) as [t ->]; [|done].
    destruct (sample_canvas_shape output_file content) as (c1 & _ & Hfile & Hshape).
    unfold r, PDFTool.create_sample_pdf, try_except. rewrite Hshape.
    unfold canvas.save.
    cbn [canvas.code canvas.drawString canvas.setFont canvas.emit_op].
    match goal with
    | |- context [match ?l with [] => _ | _ :: _ => _ end] =>
        destruct l eqn:Hcode
    end.
    { by apply app_eq_nil in Hcode as [_ ?]. }
    cbn [canvas.filename canvas.showPage canvas.drawString canvas.setFont
         canvas.emit_op]. rewrite Hfile.
    unfold bind at 1. unfold bind at 1.
    destruct w as [m t]. destruct (open_w_fails m t output_file Hnw) as [e ->].
    unfold bind, logger.error, emit, ret. cbn [fs trace]. eauto.
Qed.

(** Rotating into a directory that does not exist. *)
Lemma unwritable_output_changes_nothing_witness :
  let r := PDFTool.rotate_pdf ["doc.pdf"] 90 ["nodir"; "out.pdf"] one_page_world in
  r.1 = Return false ∧ fs r.2 = fs one_page_world.
Proof.
  destruct (unwritable_output_changes_nothing one_page_world ["nodir"; "out.pdf"])
    as (_ & Hrot & _).
  - intros [H _]. vm_compute in H. discriminate.
  - apply Hrot.
Defined.

(** *** Text extraction reads only *)

(** X9.  [extract_text] never changes the file system when the text goes to
    the standard output, whatever the input is; and when an output file is
    named but the input does not load, no output file is made. *)
Theorem extract_text_readonly h w input_file output_file :
  output_file = None ∨ (∀ ps, ¬ loads (fs w) input_file ps) →
  let r := PDFTool.extract_text h input_file output_file w in
  fs r.2 = fs w ∧ sys_events (trace r.2) = sys_events (trace w).
Proof.
  intros Hcase r.
  assert (∃ b t, r = (Return b, World (fs w) t) ∧
                 sys_events t = sys_events (trace w))
    as (b & t & -> & Ht); [|done].
  unfold r, PDFTool.extract_text. io_unfold. cbn [fs trace].
  destruct (fs_lookup (fs w) input_file) as [[|[raw|ps]]|] eqn:Hin; simpl;
    rewrite ?Hin; simpl.
  - eexists _, _. split; [reflexivity|]. by rewrite sys_events_log.
  - eexists _, _. split; [reflexivity|]. by rewrite sys_events_log.
  - destruct Hcase as [->|Hbad]; [|by destruct (Hbad ps)].
    eexists _, _. split; [reflexivity|].
    rewrite sys_events_app. simpl. by rewrite app_nil_r, sys_events_log.
  - eexists _, _. split; [reflexivity|]. by rewrite sys_events_log.
Qed.

(** Printing the text of the one-page document. *)
Lemma extract_text_readonly_witness :
  fs (PDFTool.extract_text plain_host ["doc.pdf"] None one_page_world).2
  = fs one_page_world.
Proof.
  apply (extract_text_readonly plain_host one_page_world ["doc.pdf"] None). by left.
Defined.

(** *** Rotate: the order of the checks, and rotating twice *)

(** X10.  The angle is checked before the input is opened: for any input that
    exists, be it a directory or a file that is not a PDF, an angle that is
    not a multiple of 90 gives the angle message and nothing else. *)
Theorem rotate_pdf_checks_angle_before_reading w input_file x angle output_file :
  fs_lookup (fs w) input_file = Some x →
  angle `mod` 90 ≠ 0 →
  PDFTool.rotate_pdf input_file angle output_file w
  = (Return false,
     World (fs w)
       (trace w ++ [Log ERROR "Angle must be a multiple of 90 degrees"])).
Proof.
  intros Hin Ha. unfold PDFTool.rotate_pdf. io_unfold. cbn [fs trace].
  rewrite Hin. simpl. by rewrite decide_True.
Qed.

(** A file that is not a PDF, rotated by 45 degrees. *)
Lemma rotate_pdf_checks_angle_before_reading_witness :
  trace (PDFTool.rotate_pdf ["broken.pdf"] 45 ["out.pdf"] broken_world).2
  = [Log ERROR "Angle must be a multiple of 90 degrees"].
Proof.
  refine (f_equal (λ r : outcome bool * world, trace r.2)
            (rotate_pdf_checks_angle_before_reading broken_world ["broken.pdf"]
               (File (Bytes "not a pdf")) 45 ["out.pdf"] _ _)).
  - reflexivity.
  - vm_compute. discriminate.
Defined.

Lemma rotated_rotated a b pg : rotated b (rotated a pg) = rotated (a + b) pg.
Proof. unfold rotated. simpl. by rewrite Z.add_assoc. Qed.

(** X11.  Rotations add up: rotating by [a] and then rotating the result by
    [b] writes the document that a single rotation by [a + b] would write,
    every /Rotate being the original plus [a + b].  Four quarter turns
    therefore leave /Rotate 360 above where it started. *)
Theorem rotate_pdf_twice w input_file ps a b mid_file output_file :
  loads (fs w) input_file ps →
  writable (fs w) mid_file →
  mid_file ≠ input_file →
  a `mod` 90 = 0 →
  b `mod` 90 = 0 →
  let r1 := PDFTool.rotate_pdf input_file a mid_file w in
  writable (fs r1.2) output_file →
  output_file ≠ mid_file →
  let r2 := PDFTool.rotate_pdf mid_file b output_file r1.2 in
  r1.1 = Return true ∧ r2.1 = Return true ∧
  loads (fs r2.2) output_file (rotated (a + b) <$> ps).
Proof.
  intros Hin Hmid _ Ha Hb r1 Hout Hne r2.
  pose proof (writable_nonroot _ _ Hmid) as Hmid0.
  destruct (rotate_pdf_run w _ _ _ _ Hin Hmid Ha) as [t1 H1].
  unfold r2, r1 in *. clear r1 r2. rewrite H1 in *. cbn [fst snd fs] in *.
  split; [done|].
  edestruct (rotate_pdf_run (World (<[mid_file:=File (Pdf (rotated a <$> ps))]> (fs w)) t1)
              mid_file (rotated a <$> ps) b output_file) as [t2 H2]; [|done..|].
  { unfold loads. cbn [fs]. rewrite fs_lookup_insert by done.
    by rewrite decide_True. }
  rewrite H2. cbn [fst snd fs]. split; [done|].
  unfold loads. rewrite fs_lookup_insert by (by apply writable_nonroot in Hout).
  rewrite decide_True by done. do 3 f_equal.
  rewrite <-list_fmap_compose. apply list_fmap_ext. intros i pg _. simpl.
  apply rotated_rotated.
Qed.

(** A quarter turn followed by three quarter turns stores /Rotate 360. *)
Lemma rotate_pdf_twice_witness :
  let r1 := PDFTool.rotate_pdf ["doc.pdf"] 90 ["mid.pdf"] one_page_world in
  loads (fs (PDFTool.rotate_pdf ["mid.pdf"] 270 ["out.pdf"] r1.2).2) ["out.pdf"]
    [rotated 360 blank_page].
Proof.
  destruct (rotate_pdf_twice one_page_world ["doc.pdf"] [blank_page] 90 270
              ["mid.pdf"] ["out.pdf"]) as (_ & _ & H).
  - reflexivity.
  - apply writable_check. vm_compute. reflexivity.
  - discriminate.
  - reflexivity.
  - reflexivity.
  - apply writable_check. vm_compute. reflexivity.
  - discriminate.
  - exact H.
Defined.

(** *** Watermark: the temporary file on the success path, and the text *)

(** X12.  After a successful [add_watermark] there is no [temp_watermark.pdf]
    in the working directory, also when a file of that name was there
    before: it is overwritten by the overlay and then removed.  The output is
    the only other path that changes. *)
Theorem add_watermark_removes_overlay w input_file ps text output_file :
  loads (fs w) input_file ps →
  writable (fs w) PDFTool.watermark_file →
  writable (fs w) output_file →
  input_file ≠ PDFTool.watermark_file →
  output_file ≠ PDFTool.watermark_file →
  output_file ≠ input_file →
  let r := PDFTool.add_watermark input_file text output_file w in
  r.1 = Return true ∧
  fs_lookup (fs r.2) PDFTool.watermark_file = None ∧
  ∀ q, q ≠ PDFTool.watermark_file → q ≠ output_file →
       fs_lookup (fs r.2) q = fs_lookup (fs w) q.
Proof.
  intros Hin Hwm Hout Hne1 Hne2 _ r.
  destruct (add_watermark_run w _ _ text _ Hin Hwm Hout Hne1 Hne2) as [t Ht].
  pose proof (writable_nonroot _ _ Hout) as Hnr.
  unfold r. rewrite Ht. cbn [fst snd fs]. split; [done|]. split.
  - rewrite fs_lookup_delete by done. by rewrite decide_True.
  - intros q Hq1 Hq2. rewrite fs_lookup_delete by done.
    rewrite decide_False by done. rewrite !fs_lookup_insert by done.
    by rewrite !decide_False by done.
Qed.

(** A world in which [temp_watermark.pdf] is somebody's document. *)
Lemma add_watermark_removes_overlay_witness :
  let w := World (<[PDFTool.watermark_file := File (Pdf five_pages)]>
                    (fs one_page_world)) [] in
  loads (fs w) PDFTool.watermark_file five_pages ∧
  fs_lookup (fs (PDFTool.add_watermark ["doc.pdf"] "DRAFT" ["out.pdf"] w).2)
    PDFTool.watermark_file = None.
Proof.
  intros w. split; [reflexivity|].
  apply (add_watermark_removes_overlay w ["doc.pdf"] [blank_page] "DRAFT" ["out.pdf"]).
  - reflexivity.
  - apply writable_check. vm_compute. reflexivity.
  - apply writable_check. vm_compute. reflexivity.
  - discriminate.
  - discriminate.
  - discriminate.
Defined.

(** X13.  Naming [temp_watermark.pdf] as the output loses it: the method
    writes the watermarked document there, removes that very file as its
    temporary file and still returns [True]. *)
Theorem add_watermark_output_is_temp w input_file ps text :
  loads (fs w) input_file ps →
  writable (fs w) PDFTool.watermark_file →
  input_file ≠ PDFTool.watermark_file →
  let r := PDFTool.add_watermark input_file text PDFTool.watermark_file w in
  r.1 = Return true ∧
  fs r.2 = delete PDFTool.watermark_file (fs w) ∧
  SysRemove PDFTool.watermark_file ∈ trace r.2.
Proof.
  intros Hin Hwm Hne r. unfold loads in Hin.
  assert (PDFTool.watermark_file ≠ []) as Hwm0 by done.
  set (m1 := <[PDFTool.watermark_file := File (Pdf [overlay_page text])]> (fs w)).
  assert (fs_lookup m1 input_file = Some (File (Pdf ps))) as Hin1.
  { unfold m1. rewrite fs_lookup_insert by done. by rewrite decide_False. }
  assert (fs_lookup m1 PDFTool.watermark_file
          = Some (File (Pdf [overlay_page text]))) as Hwm1.
  { unfold m1. rewrite fs_lookup_insert by done. by rewrite decide_True. }
  assert (writable m1 PDFTool.watermark_file) as Hw1.
  { split; [done|]. by rewrite Hwm1. }
  assert (∃ t, r = (Return true, World (delete PDFTool.watermark_file (fs w)) t) ∧
               SysRemove PDFTool.watermark_file ∈ t)
    as (t & -> & Ht); [|done].
  unfold r, PDFTool.add_watermark, try_except.
  unfold bind at 1. unfold os.exists_ at 1. rewrite Hin.
  rewrite bool_decide_eq_true_2 by eauto. cbn [negb].
  destruct w as [m t]. cbn [fs trace] in *.
  rewrite canvas_save_run by done.
  change (canvas.filename (PDFTool.watermark_canvas text))
    with PDFTool.watermark_file.
  change (canvas.finished (canvas.showPage (PDFTool.watermark_canvas text)))
    with [overlay_page text].
  fold m1.
  unfold bind at 1. unfold os.open_rb at 1. cbn [fs]. rewrite Hin1.
  unfold bind at 1. unfold PyPDF2.PdfReader at 1, ret at 1.
  unfold bind at 1. unfold os.open_rb at 1. cbn [fs]. rewrite Hwm1.
  unfold bind at 1. unfold PyPDF2.PdfReader at 1, ret at 1.
  unfold bind at 1. unfold lift at 1.
  change (Py.getitem [overlay_page text] 0) with (Return (overlay_page text)).
  cbv iota. rewrite watermark_loop_run. cbn [app].
  rewrite write_file_run by done.
  unfold bind at 1. unfold os.remove at 1. cbn [fs trace].
  rewrite fs_lookup_insert by done. rewrite decide_True by done.
  unfold bind, logger.info, emit, ret. cbn [fs trace].
  eexists. split.
  - f_equal. f_equal. unfold m1.
    by rewrite !delete_insert_eq.
  - set_solver.
Qed.

(** Watermarking the one-page document into [temp_watermark.pdf]. *)
Lemma add_watermark_output_is_temp_witness :
  let r := PDFTool.add_watermark ["doc.pdf"] "DRAFT" PDFTool.watermark_file
             one_page_world in
  r.1 = Return true ∧ fs r.2 = delete PDFTool.watermark_file (fs one_page_world).
Proof.
  destruct (add_watermark_output_is_temp one_page_world ["doc.pdf"] [blank_page]
              "DRAFT") as (Hr & Hfs & _).
  - reflexivity.
  - apply writable_check. vm_compute. reflexivity.
  - discriminate.
  - by split.
Defined.





(** Stamping the report with the empty string: page 2 still shows "2" and
    nothing else. *)
Example add_watermark_empty_text :
  ∃ qs,
    loads (fs (PDFTool.add_watermark ["report.pdf"] "" ["out.pdf"]
                 report_world).2) ["out.pdf"] qs ∧
    ((PyPDF2.shown_text ∘ contents) <$> qs) !! 1%nat = Some ["2"].
Proof. eexists. split; vm_compute; reflexivity. Qed.


(** *** CreateSample: pagination, text and margins *)

Lemma create_sample_pdf_run w output_file content :
  writable (fs w) output_file →
  PDFTool.create_sample_pdf output_file content w
  = (Return true,
     World (<[output_file := File (Pdf (sample_pages output_file content))]> (fs w))
       (trace w
        ++ [SysOpenW output_file;
            SysWrite output_file (Pdf (sample_pages output_file content))]
        ++ [Log INFO ("Sample PDF created: " +:+ path_str output_file)])).
Proof.
  intros Hout. destruct w as [m t]. cbn [fs trace] in *.
  destruct (sample_canvas_shape output_file content) as (c1 & _ & Hfile & Hshape).
  assert (canvas.filename (PDFTool.sample_canvas output_file content) = output_file)
    as Hname by (by rewrite Hshape).
  assert (canvas.code (PDFTool.sample_canvas output_file content) ≠ []) as Hcode.
  { rewrite Hshape. cbn. intros H. by apply app_eq_nil in H as [_ ?]. }
  unfold PDFTool.create_sample_pdf, try_except, sample_pages.
  rewrite canvas_save_run by (by rewrite ?Hname).
  unfold bind, logger.info, emit, ret. cbn [fs trace].
  by rewrite Hname, <-app_assoc.
Qed.

Lemma capacity_step y : 50 ≤ y → capacity (y - 20) = capacity y - 1.
Proof.
  intros Hy. unfold capacity. rewrite (decide_False (P := y < 50)) by lia.
  destruct (decide (y - 20 < 50)).
  - assert ((y - 50) / 20 = 0) as -> by (apply Z.div_small; lia). lia.
  - replace (y - 50) with (y - 20 - 50 + 1 * 20) by lia.
    rewrite Z.div_add by lia. lia.
Qed.

Lemma ceil_div_35_next l : 0 ≤ l →
  1 + ceil_div (Z.max 0 (l - 34)) 35 = ceil_div (l + 1) 35.
Proof.
  intros Hl. unfold ceil_div.
  destruct (decide (l < 34)).
  - rewrite Z.max_l by lia. Z.div_mod_to_equations. lia.
  - rewrite Z.max_r by lia. Z.div_mod_to_equations. lia.
Qed.

Lemma draw_lines_pages lines : ∀ c y,
  Z.of_nat (length (canvas.finished (PDFTool.draw_lines c 792 y lines).1))
  = Z.of_nat (length (canvas.finished c))
    + ceil_div (Z.max 0 (Z.of_nat (length lines) - capacity y)) 35.
Proof.
  induction lines as [|line lines IH]; intros c y.
  - assert (0 ≤ capacity y) as Hc.
    { unfold capacity. case_decide; [lia|]. Z.div_mod_to_equations. lia. }
    cbn [PDFTool.draw_lines fst length]. rewrite Z.max_l by lia.
    change (ceil_div 0 35) with 0. lia.
  - change (length (line :: lines)) with (S (length lines)).
    rewrite Nat2Z.inj_succ, <-Z.add_1_r.
    cbn [PDFTool.draw_lines]. destruct (decide (y < 50)) as [Hlow|Hok].
    + rewrite IH. cbn [canvas.finished canvas.drawString canvas.emit_op
                      canvas.showPage]. rewrite length_app. cbn [length].
      replace (capacity (792 - 50 - 20)) with 34 by reflexivity.
      unfold capacity at 1. rewrite decide_True by done.
      rewrite Z.sub_0_r, (Z.max_r 0 (Z.of_nat (length lines) + 1)) by lia.
      rewrite <-ceil_div_35_next by lia. lia.
    + rewrite IH. cbn [canvas.finished canvas.drawString canvas.emit_op].
      rewrite capacity_step by lia. do 3 f_equal. lia.
Qed.

(** X15.  Pagination: the first page takes the title and 30 body lines, every
    further page 35; a body of [L] lines (one more than its line feeds) is
    written as [1 + ceil((L - 30) / 35)] pages, and as a single page when
    [L <= 30]. *)
Theorem create_sample_pdf_page_count w output_file content :
  writable (fs w) output_file →
  let r := PDFTool.create_sample_pdf output_file content w in
  let L := Z.of_nat (length (Py.split (ascii_of_nat 10) content)) in
  r.1 = Return true ∧
  ∃ qs, loads (fs r.2) output_file qs ∧
        Z.of_nat (length qs) = 1 + ceil_div (Z.max 0 (L - 30)) 35.
Proof.
  intros Hout r L. unfold r. rewrite (create_sample_pdf_run _ _ _ Hout).
  cbn [fst snd fs]. split; [done|]. eexists. split.
  - unfold loads. rewrite fs_lookup_insert by (by apply writable_nonroot in Hout).
    by rewrite decide_True.
  - unfold sample_pages, PDFTool.sample_canvas, letter. cbv beta iota zeta.
    match goal with
    | |- context [PDFTool.draw_lines ?c ?h ?y ?l] =>
        pose proof (draw_lines_pages l c y) as Hp;
        change h with 792;
        destruct (PDFTool.draw_lines c 792 y l) as [c1 y1]
    end.
    cbn [fst canvas.finished canvas.showPage canvas.drawString canvas.setFont
         canvas.emit_op] in *.
    rewrite length_app. cbn [length]. rewrite Nat2Z.inj_add, Hp.
    replace (capacity (792 - 150)) with 30 by reflexivity.
    fold L. simpl. lia.
Qed.

(** 30 lines fit on one page, 31 need two, 66 need three. *)
Lemma create_sample_pdf_page_count_witness :
  ∃ qs, loads (fs (PDFTool.create_sample_pdf ["s.pdf"] (body_of_lines 66)
                     (World ∅ [])).2) ["s.pdf"] qs ∧
        length qs = 3%nat.
Proof.
  destruct (create_sample_pdf_page_count (World ∅ []) ["s.pdf"] (body_of_lines 66))
    as (_ & qs & Hq & Hlen).
  - apply writable_check. vm_compute. reflexivity.
  - exists qs. split; [exact Hq|].
    apply Nat2Z.inj. rewrite Hlen. vm_compute. reflexivity.
Defined.









Lemma in_margins_text_object x y text :
  30 ≤ y ≤ 742 → (x = 100 → 50 ≤ y) → in_margins (canvas.text_object x y text).
Proof. by destruct text. Qed.

Lemma draw_lines_margins lines : ∀ c y,
  y ≤ 742 →
  Forall in_margins (canvas.code c) →
  Forall (Forall in_margins ∘ contents) (canvas.finished c) →
  Forall in_margins (canvas.code (PDFTool.draw_lines c 792 y lines).1) ∧
  Forall (Forall in_margins ∘ contents)
    (canvas.finished (PDFTool.draw_lines c 792 y lines).1).
Proof.
  induction lines as [|line lines IH]; intros c y Hy Hc Hf; [done|].
  cbn [PDFTool.draw_lines]. case_decide.
  - apply IH; [lia| |].
    + cbn [canvas.code canvas.drawString canvas.showPage canvas.emit_op app].
      constructor; [|constructor]. apply in_margins_text_object; lia.
    + cbn. apply Forall_app. split; [done|]. by constructor.
  - apply IH; [lia| |done].
    cbn [canvas.code canvas.drawString canvas.emit_op].
    apply Forall_app. split; [done|].
    constructor; [|constructor]. apply in_margins_text_object; lia.
Qed.

(** X17.  Every text operator of every page of a sample document lies inside
    the page: between the label line (y = 30) and the top margin (y = 742),
    and a line in the body column (x = 100) is never below the bottom margin
    (y = 50), however long the body is. *)
Theorem create_sample_pdf_margins w output_file content :
  writable (fs w) output_file →
  ∃ qs,
    loads (fs (PDFTool.create_sample_pdf output_file content w).2) output_file qs ∧
    ∀ pg o, pg ∈ qs → o ∈ contents pg → in_margins o.
Proof.
  intros Hout. rewrite (create_sample_pdf_run _ _ _ Hout). cbn [snd fs].
  eexists. split.
  - unfold loads. rewrite fs_lookup_insert by (by apply writable_nonroot in Hout).
    by rewrite decide_True.
  - assert (Forall (Forall in_margins ∘ contents) (sample_pages output_file content))
      as Hall.
    { unfold sample_pages, PDFTool.sample_canvas, letter. cbv beta iota zeta.
      match goal with
      | |- context [PDFTool.draw_lines ?c ?h ?y ?l] =>
          destruct (draw_lines_margins l c y) as [Hc Hf];
            [lia | cbn; repeat constructor; lia | by constructor |];
          change h with 792;
          destruct (PDFTool.draw_lines c 792 y l) as [c1 y1]
      end.
      cbn [fst] in *. cbn. apply Forall_app. split; [done|].
      constructor; [|done]. cbn.
      rewrite !Forall_app. repeat split; [done|..]; repeat constructor; lia. }
    intros pg o Hpg Ho.
    rewrite Forall_forall in Hall. specialize (Hall pg Hpg). cbn in Hall.
    rewrite Forall_forall in Hall. by apply Hall.
Qed.

(** The last body line of a full first page sits at y = 62. *)
Lemma create_sample_pdf_margins_witness :
  ∃ qs,
    loads (fs (PDFTool.create_sample_pdf ["s.pdf"] (body_of_lines 30)
                 (World ∅ [])).2) ["s.pdf"] qs ∧
    ∀ pg, pg ∈ qs → DrawString 100 62 "x" ∈ contents pg →
          in_margins (DrawString 100 62 "x").
Proof.
  destruct (create_sample_pdf_margins (World ∅ []) ["s.pdf"] (body_of_lines 30))
    as (qs & Hq & Hm).
  - apply writable_check. vm_compute. reflexivity.
  - exists qs. split; [exact Hq|]. intros pg Hpg Ho. exact (Hm pg _ Hpg Ho).
Defined.

(** *** Info *)

Lemma print_each {A} (f : A → string) items : ∀ m t,
  for_each items (λ x, Py.print (f x)) (World m t)
  = (Return tt, World m (t ++ (Print ∘ f <$> items))).
Proof.
  unfold for_each. induction items as [|x items IH]; intros m t; simpl.
  - by rewrite app_nil_r.
  - unfold bind at 1. unfold Py.print at 1, emit at 1. cbn [fs trace].
    rewrite IH. by rewrite <-app_assoc.
Qed.

Lemma get_pdf_info_run h w input_file ps :
  loads (fs w) input_file ps →
  CLI.get_pdf_info h input_file w
  = (Return true,
     World (fs w) (trace w ++ (Print <$> info_lines h input_file ps))).
Proof.
  intros Hin. unfold loads in Hin. destruct w as [m t]. cbn [fs trace] in *.
  unfold CLI.get_pdf_info, try_except.
  unfold bind at 1. unfold os.exists_ at 1. cbn [fs]. rewrite Hin.
  rewrite bool_decide_eq_true_2 by eauto. cbn [negb].
  unfold bind at 1. unfold os.open_rb at 1. cbn [fs]. rewrite Hin.
  unfold bind at 1. unfold PyPDF2.PdfReader at 1, ret at 1.
  do 3 (unfold bind at 1; unfold Py.print at 1, emit at 1; cbn [fs trace]).
  unfold info_lines.
  destruct (metadata h input_file) as [|kv items].
  - unfold bind at 1. unfold ret at 1.
    destruct ps as [|pg ps].
    + unfold bind, ret. cbn. rewrite <-?app_assoc. reflexivity.
    + change (Py.getitem (pg :: ps) 0) with (Py.getitem (pg :: ps) (Z.of_nat 0)).
      rewrite (getitem_nat (pg :: ps) 0 pg eq_refl).
      unfold bind, lift, Py.print, emit, ret. cbn.
      rewrite <-?app_assoc. reflexivity.
  - cbv iota. rewrite bind_assoc.
    unfold bind at 1. unfold Py.print at 1, emit at 1. cbn [fs trace].
    unfold bind at 1.
    rewrite (print_each (λ kv : string * string, "  " +:+ kv.1 +:+ ": " +:+ kv.2)).
    destruct ps as [|pg ps].
    + unfold bind, ret. cbn [fs trace].
      rewrite !fmap_app, list_fmap_compose, <-?app_assoc. cbn.
      rewrite app_nil_r. reflexivity.
    + change (Py.getitem (pg :: ps) 0) with (Py.getitem (pg :: ps) (Z.of_nat 0)).
      rewrite (getitem_nat (pg :: ps) 0 pg eq_refl).
      unfold bind, lift, Py.print, emit, ret. cbn [fs trace]. cbn.
      rewrite !fmap_app, list_fmap_compose, <-?app_assoc. cbn.
      rewrite <-?app_assoc. reflexivity.
Qed.

(** X18.  On a readable document [get_pdf_info] returns [True], changes
    nothing in the file system and prints, in this order: the header, the
    page count, the size, the metadata block when there is metadata, and the
    width and height of the first page when there is a page (nothing about
    dimensions for a document without pages). *)
Theorem get_pdf_info_report h w input_file ps :
  loads (fs w) input_file ps →
  CLI.get_pdf_info h input_file w
  = (Return true,
     World (fs w) (trace w ++ (Print <$> info_lines h input_file ps))).
Proof. apply get_pdf_info_run. Qed.

(** The one-page letter document: six lines, the last two its dimensions. *)
Lemma get_pdf_info_report_witness :
  length (trace (CLI.get_pdf_info plain_host ["doc.pdf"] one_page_world).2) = 6%nat.
Proof.
  rewrite (get_pdf_info_report plain_host one_page_world ["doc.pdf"] [blank_page]).
  - reflexivity.
  - reflexivity.
Defined.

Lemma sys_events_prints lines : sys_events (Print <$> lines) = [].
Proof. induction lines as [|l lines IH]; [done|]. by rewrite fmap_cons. Qed.

(** X19.  [get_pdf_info] only reads: in every world it leaves the file system
    as it was and opens nothing for writing, and it returns [True] exactly
    when the input exists and parses as a PDF, [False] otherwise. *)
Theorem get_pdf_info_readonly h w input_file :
  let r := CLI.get_pdf_info h input_file w in
  fs r.2 = fs w ∧
  sys_events (trace r.2) = sys_events (trace w) ∧
  (r.1 = Return true ↔ ∃ ps, loads (fs w) input_file ps) ∧
  (r.1 = Return true ∨ r.1 = Return false).
Proof.
  intros r.
  assert ((∀ ps, ¬ loads (fs w) input_file ps) →
          ∃ msg, r = (Return false, World (fs w) (trace w ++ [Log ERROR msg])))
    as Hbad.
  { intros Hno. unfold r, CLI.get_pdf_info. io_unfold. cbn [fs trace].
    destruct (fs_lookup (fs w) input_file) as [[|[raw|ps]]|] eqn:Hin;
      cbn; rewrite ?Hin; cbn; eauto.
    by destruct (Hno ps). }
  destruct (fs_lookup (fs w) input_file) as [[|[raw|ps]]|] eqn:Hin.
  3:{ unfold r. rewrite (get_pdf_info_run h w input_file ps Hin).
      cbn [fst snd fs trace]. rewrite sys_events_app, sys_events_prints, app_nil_r.
      split; [done|]. split; [done|]. split; [|by left].
      split; [by exists ps|done]. }
  all: destruct Hbad as [msg ->];
    [intros ps Hps; unfold loads in Hps; congruence|];
    cbn [fst snd fs trace]; rewrite sys_events_log;
    split; [done|]; split; [done|]; split; [|by right];
    split; [discriminate|];
    intros [ps Hps]; unfold loads in Hps; congruence.
Qed.

(** *** No exception escapes; the command line *)

Lemma guarded_returns (body : io bool) (msg : exn → string) w :
  ∃ b w', try_except body (λ e, logger.error (msg e) >> ret false) w
          = (Return b, w').
Proof.
  unfold try_except, bind, logger.error, emit, ret.
  destruct (body w) as [[b|e] w']; eauto.
Qed.

Lemma merge_pdfs_returns input_files output_file w :
  ∃ b w', PDFTool.merge_pdfs input_files output_file w = (Return b, w').
Proof. apply guarded_returns. Qed.

Lemma split_pdf_returns input_file output_dir k w :
  ∃ b w', PDFTool.split_pdf input_file output_dir k w = (Return b, w').
Proof. apply guarded_returns. Qed.

Lemma extract_text_returns h input_file output_file w :
  ∃ b w', PDFTool.extract_text h input_file output_file w = (Return b, w').
Proof. apply guarded_returns. Qed.

Lemma rotate_pdf_returns input_file angle output_file w :
  ∃ b w', PDFTool.rotate_pdf input_file angle output_file w = (Return b, w').
Proof. apply guarded_returns. Qed.

Lemma add_watermark_returns input_file text output_file w :
  ∃ b w', PDFTool.add_watermark input_file text output_file w = (Return b, w').
Proof. apply guarded_returns. Qed.

Lemma create_sample_pdf_returns output_file content w :
  ∃ b w', PDFTool.create_sample_pdf output_file content w = (Return b, w').
Proof. apply guarded_returns. Qed.

Lemma get_pdf_info_returns h input_file w :
  ∃ b w', CLI.get_pdf_info h input_file w = (Return b, w').
Proof. apply guarded_returns. Qed.

(** X20.  No method of [PDFTool] lets an exception escape: whatever the
    arguments and the state of the file system (missing or unreadable files,
    directories in the way, a zero step), each one returns a boolean. *)
Theorem pdftool_never_raises h w :
  (∀ input_files output_file,
     ∃ b w', PDFTool.merge_pdfs input_files output_file w = (Return b, w')) ∧
  (∀ input_file output_dir k,
     ∃ b w', PDFTool.split_pdf input_file output_dir k w = (Return b, w')) ∧
  (∀ input_file output_file,
     ∃ b w', PDFTool.extract_text h input_file output_file w = (Return b, w')) ∧
  (∀ input_file angle output_file,
     ∃ b w', PDFTool.rotate_pdf input_file angle output_file w = (Return b, w')) ∧
  (∀ input_file text output_file,
     ∃ b w', PDFTool.add_watermark input_file text output_file w = (Return b, w')) ∧
  (∀ output_file content,
     ∃ b w', PDFTool.create_sample_pdf output_file content w = (Return b, w')) ∧
  (∀ input_file, ∃ b w', CLI.get_pdf_info h input_file w = (Return b, w')).
Proof.
  repeat split; intros.
  - apply merge_pdfs_returns.
  - apply split_pdf_returns.
  - apply extract_text_returns.
  - apply rotate_pdf_returns.
  - apply add_watermark_returns.
  - apply create_sample_pdf_returns.
  - apply get_pdf_info_returns.
Qed.

Lemma exit_code_after (m : io bool) w :
  (∃ b w', m w = (Return b, w')) →
  ∃ c w', bind m (λ success, ret (CLI.exit_code success)) w = (Return c, w') ∧
          (c = 0 ∨ c = 1).
Proof.
  intros (b & w' & Hm). unfold bind, ret. rewrite Hm.
  exists (CLI.exit_code b), w'. split; [done|]. destruct b; auto.
Qed.

(** X21.  [main] always ends with exit code 0 or 1: no exception of an
    operation reaches it, whatever the arguments and the file system. *)
Theorem main_exit_code h a w :
  ∃ c w', CLI.main h a w = (Return c, w') ∧ (c = 0 ∨ c = 1).
Proof.
  unfold CLI.main, try_except.
  destruct (arg_operation a).
  - case_decide.
    + unfold bind, Py.print, emit, ret. eauto.
    + destruct (exit_code_after
                  (PDFTool.merge_pdfs (arg_input a)
                     (default ["merged.pdf"] (arg_output a))) w
                  (merge_pdfs_returns _ _ _)) as (c & w' & -> & Hc). eauto.
  - destruct (arg_input a) as [|input0 rest].
    + unfold bind, Py.print, emit, ret. eauto.
    + destruct (exit_code_after
                  (PDFTool.split_pdf input0 (default ["split_output"] (arg_output a))
                     (arg_pages a)) w (split_pdf_returns _ _ _ _))
        as (c & w' & -> & Hc). eauto.
  - destruct (arg_input a) as [|input0 rest].
    + unfold bind, Py.print, emit, ret. eauto.
    + destruct (exit_code_after (PDFTool.extract_text h input0 (arg_output a)) w
                  (extract_text_returns _ _ _ _)) as (c & w' & -> & Hc). eauto.
  - destruct (arg_input a) as [|input0 rest].
    + unfold bind, Py.print, emit, ret. eauto.
    + destruct (exit_code_after
                  (PDFTool.rotate_pdf input0 (arg_angle a)
                     (default (CLI.prefixed "rotated_" input0) (arg_output a))) w
                  (rotate_pdf_returns _ _ _ _)) as (c & w' & -> & Hc). eauto.
  - destruct (arg_input a) as [|input0 rest].
    { unfold bind, Py.print, emit, ret. eauto. }
    destruct (arg_watermark a) as [[|ch text]|].
    + unfold bind, Py.print, emit, ret. eauto.
    + destruct (exit_code_after
                  (PDFTool.add_watermark input0 (String ch text)
                     (default (CLI.prefixed "watermarked_" input0) (arg_output a)))
                  w (add_watermark_returns _ _ _ _)) as (c & w' & -> & Hc). eauto.
    + unfold bind, Py.print, emit, ret. eauto.
  - destruct (arg_input a) as [|input0 rest].
    + unfold bind, Py.print, emit, ret. eauto.
    + destruct (exit_code_after (CLI.get_pdf_info h input0) w
                  (get_pdf_info_returns _ _ _)) as (c & w' & -> & Hc). eauto.
  - destruct (exit_code_after
                (PDFTool.create_sample_pdf (default ["sample.pdf"] (arg_output a))
                   (arg_content a)) w (create_sample_pdf_returns _ _ _))
      as (c & w' & -> & Hc). eauto.
Qed.

(** X22.  Arguments that name too few inputs are refused before any
    operation runs: [merge] with fewer than two inputs, [split],
    [extract-text], [rotate] and [info] without an input, and [watermark]
    without an input or without a non-empty text print one error line, end
    with exit code 1 and leave the file system untouched. *)
Theorem main_refuses_missing_arguments h a w :
  (arg_operation a = OpMerge ∧ (length (arg_input a) < 2)%nat) ∨
  (arg_operation a ∈ [OpSplit; OpExtractText; OpRotate; OpInfo]
   ∧ arg_input a = []) ∨
  (arg_operation a = OpWatermark
   ∧ (arg_input a = [] ∨ arg_watermark a = None ∨ arg_watermark a = Some "")) →
  ∃ msg, CLI.main h a w = (Return 1, World (fs w) (trace w ++ [Print msg])).
Proof.
  unfold CLI.main, try_except.
  intros [[Hop Hlen]|[[Hop Hin]|[Hop Hargs]]].
  - rewrite Hop. rewrite decide_True by done.
    unfold bind, Py.print, emit, ret. cbn. eauto.
  - rewrite Hin.
    repeat (apply elem_of_cons in Hop as [Hop|Hop];
            [rewrite Hop; unfold bind, Py.print, emit, ret; cbn; eauto|]).
    by apply elem_of_nil in Hop.
  - rewrite Hop. destruct Hargs as [Hin|[Hwm|Hwm]].
    + rewrite Hin. unfold bind, Py.print, emit, ret. cbn. eauto.
    + rewrite Hwm. destruct (arg_input a);
        unfold bind, Py.print, emit, ret; cbn; eauto.
    + rewrite Hwm. destruct (arg_input a);
        unfold bind, Py.print, emit, ret; cbn; eauto.
Qed.

(** [merge] with a single input. *)
Lemma main_refuses_missing_arguments_witness :
  ∃ msg,
    CLI.main plain_host (Args OpMerge [["a.pdf"]] None 90 None 1 "") two_docs_world
    = (Return 1, World (fs two_docs_world) [Print msg]).
Proof.
  apply (main_refuses_missing_arguments plain_host
           (Args OpMerge [["a.pdf"]] None 90 None 1 "") two_docs_world).
  left. split; [reflexivity|]. simpl. lia.
Defined.

(** X23.  Without [-o], [rotate] writes to the input path with [rotated_] put
    in front of its first component.  For an input in the working directory
    this is a sibling file; for an input inside a directory [d] it is a path
    inside [rotated_d], and when that directory does not exist the command
    ends with exit code 1 and writes nothing, although the input is readable
    and the angle is fine. *)
Theorem main_rotate_default_output h w input0 more ps angle wm pages content :
  loads (fs w) input0 ps →
  angle `mod` 90 = 0 →
  let out := CLI.prefixed "rotated_" input0 in
  let r := CLI.main h (Args OpRotate (input0 :: more) None angle wm pages content) w in
  (writable (fs w) out →
     r.1 = Return 0 ∧ loads (fs r.2) out (rotated angle <$> ps)) ∧
  (¬ writable (fs w) out → r.1 = Return 1 ∧ fs r.2 = fs w).
Proof.
  intros Hin Ha out r. split.
  - intros Hout.
    destruct (rotate_pdf_run w _ _ _ _ Hin Hout Ha) as [t Ht].
    unfold r, CLI.main, try_except, bind. cbn [arg_operation arg_input
      arg_output arg_angle default]. fold out. rewrite Ht.
    unfold ret. cbn [fst snd fs CLI.exit_code]. split; [done|].
    unfold loads. rewrite fs_lookup_insert by (by apply writable_nonroot in Hout).
    by rewrite decide_True.
  - intros Hnw.
    assert (∃ t, PDFTool.rotate_pdf input0 angle out w
                 = (Return false, World (fs w) t)) as [t Ht].
    { unfold loads in Hin. unfold PDFTool.rotate_pdf, try_except.
      unfold bind at 1. unfold os.exists_ at 1. rewrite Hin.
      rewrite bool_decide_eq_true_2 by eauto. cbn [negb].
      rewrite decide_False by (intros H; by apply H).
      unfold bind at 1. unfold os.open_rb at 1. rewrite Hin.
      unfold bind at 1. unfold PyPDF2.PdfReader at 1, ret at 1.
      unfold bind at 1. unfold logger.info at 1, emit at 1.
      unfold bind at 1. rewrite rotate_loop_run by done.
      unfold bind at 1.
      destruct (open_w_fails (fs w)
                  (trace w ++ [Log INFO ("Rotating "
                     +:+ Py.str (Z.of_nat (length ps)) +:+ " pages by "
                     +:+ Py.str angle +:+ " degrees")])
                  out Hnw) as [e He].
      cbn [fs trace]. rewrite He.
      unfold bind, logger.error, emit, ret. cbn [fs trace]. eauto. }
    unfold r, CLI.main, try_except, bind. cbn [arg_operation arg_input
      arg_output arg_angle default]. fold out. rewrite Ht.
    unfold ret. by cbn [fst snd fs CLI.exit_code].
Qed.

(** [docs/doc.pdf] rotated without [-o]: there is no [rotated_docs]. *)
Lemma main_rotate_default_output_witness :
  let r := CLI.main plain_host
             (Args OpRotate [["docs"; "doc.pdf"]] None 90 None 1 "") nested_world in
  r.1 = Return 1 ∧ fs r.2 = fs nested_world.
Proof.
  destruct (main_rotate_default_output plain_host nested_world ["docs"; "doc.pdf"]
              [] [blank_page] 90 None 1 "") as [_ Hfail].
  - reflexivity.
  - reflexivity.
  - apply Hfail. intros [H _]. vm_compute in H. discriminate.
Defined.
